(** * Farm House voucher bot (bot.py): conversation, sheet and amount parsing

    A shallow embedding of [bot.py]: the conversation callbacks, the
    [ConversationHandler] table built in [main], the module-level sheet
    initialisation, and the library functions on which the behaviour
    hinges: Python's [float(str)] and [strftime], python-telegram-bot's
    handler dispatch, and the two worksheet calls of gspread.

    - Texts are byte strings ([string]).  Python floats are IEEE binary64
      values, represented by [spec_float] with [prec = 53], [emax = 1024].
    - A callback is a computation in a state-and-exception monad over the
      [World]: the scratch data [context.user_data] (a [gmap]), the global
      [sheet] with the remote worksheet behind it, the clock, and what the
      callback sent, logged and asked the sheet to append.
    - A reply is kept as the parts of its f-string, literal text and
      interpolated values.
    - An [App] is one conversation with the scratch data of its user; a
      [Service] is the whole process: one state of the conversation for
      each pair of a chat and a user, one [user_data] for each user (shared
      by the conversations that the user has in several chats), and the
      updates that are not new messages. *)

From Stdlib Require Import ZArith String Ascii List Bool Lia SpecFloat QArith.
From stdpp Require Import gmap strings.
Import ListNotations.

Open Scope string_scope.
Open Scope list_scope.
Open Scope Z_scope.

(** ** Python [float(str)]

    [PyFloat_FromString] as CPython runs it on a [str].  The text is given by
    its UTF-8 bytes.  A text with a character outside ASCII is first brought
    to ASCII: the white space of Unicode becomes a space and a decimal digit
    of any script the ASCII digit of its value (the tables are those of
    Unicode 14.0, as in CPython 3.11); any other character makes the
    conversion fail.  Then white space is stripped, underscores between
    digits are dropped, and the rest must be a decimal number or an infinity
    or a NaN in full. *)

Module PyFloat.

(** A Python [float]: a binary64 value. *)
Definition t := spec_float.

Definition prec : Z := 53.
Definition emax : Z := 1024.

(** [Py_ISSPACE]: tab, newline, vertical tab, form feed, return, space. *)
Definition Py_ISSPACE (c : ascii) : bool :=
  let n := Z.of_nat (nat_of_ascii c) in
  (n =? 32) || ((9 <=? n) && (n <=? 13)).

Definition Py_ISDIGIT (c : ascii) : bool :=
  let n := Z.of_nat (nat_of_ascii c) in
  (48 <=? n) && (n <=? 57).

Definition Py_TOLOWER (c : ascii) : ascii :=
  let n := nat_of_ascii c in
  if ((65 <=? n) && (n <=? 90))%nat then ascii_of_nat (n + 32) else c.

Definition digit_value (c : ascii) : Z := Z.of_nat (nat_of_ascii c) - 48.

(** The value of a string of decimal digits, most significant first. *)
Definition Z_of_digits (ds : list ascii) : Z :=
  fold_left (fun acc c => 10 * acc + digit_value c) ds 0.

(** Leading and trailing white space is dropped before conversion. *)
Fixpoint lstrip (s : list ascii) : list ascii :=
  match s with
  | c :: s' => if Py_ISSPACE c then lstrip s' else s
  | [] => []
  end.

Definition strip (s : list ascii) : list ascii :=
  rev (lstrip (rev (lstrip s))).

Definition is_underscore (c : ascii) : bool := Ascii.eqb c "_".

(** The copying loop of [_Py_string_to_number_with_underscores]: an
    underscore is dropped when it stands between two digits, and is an
    error anywhere else.  [prev] is the character read last. *)
Fixpoint drop_underscores (prev : ascii) (s : list ascii)
  : option (list ascii) :=
  match s with
  | [] => if is_underscore prev then None else Some []
  | c :: s' =>
      if is_underscore c then
        if Py_ISDIGIT prev then drop_underscores c s' else None
      else if is_underscore prev && negb (Py_ISDIGIT c) then None
      else option_map (cons c) (drop_underscores c s')
  end.

Definition parse_sign (s : list ascii) : bool * list ascii :=
  match s with
  | c :: s' =>
      if Ascii.eqb c "-" then (true, s')
      else if Ascii.eqb c "+" then (false, s')
      else (false, s)
  | [] => (false, s)
  end.

(** Longest prefix of digits, and what follows it. *)
Fixpoint span_digits (s : list ascii) : list ascii * list ascii :=
  match s with
  | c :: s' =>
      if Py_ISDIGIT c
      then let '(ds, r) := span_digits s' in (c :: ds, r)
      else ([], s)
  | [] => ([], [])
  end.

(** The double nearest to [(-1)^neg * m * 10^e10] (ties to even), with
    overflow to an infinity and underflow to a subnormal or a zero: what
    the correctly rounded [strtod] computes. *)
Definition decimal_to_double (neg : bool) (m e10 : Z) : t :=
  match m with
  | Zpos p =>
      if 0 <=? e10
      then binary_round prec emax neg (p * Z.to_pos (10 ^ e10)) 0
      else SFdiv prec emax (S754_finite neg p 0)
                 (S754_finite false (Z.to_pos (10 ^ (- e10))) 0)
  | _ => S754_zero neg
  end.

(** The exponent part [e[+-]ddd].  An [e] that no digit follows is not
    part of the number: the scan backs up in front of it. *)
Definition parse_exponent (s : list ascii) : Z * list ascii :=
  match s with
  | c :: s' =>
      if Ascii.eqb (Py_TOLOWER c) "e" then
        let '(eneg, s1) := parse_sign s' in
        let '(ds, s2) := span_digits s1 in
        match ds with
        | [] => (0, s)
        | _ => ((if eneg then - Z_of_digits ds else Z_of_digits ds), s2)
        end
      else (0, s)
  | [] => (0, s)
  end.

(** [_Py_dg_strtod]: sign, digits, point and digits, exponent.  The
    result is the value and the text left unread; [None] when no digit was
    found. *)
Definition dg_strtod (s : list ascii) : option (t * list ascii) :=
  let '(neg, s1) := parse_sign s in
  let '(ip, s2) := span_digits s1 in
  let '(fp, s3) :=
    match s2 with
    | c :: r => if Ascii.eqb c "." then span_digits r else ([], s2)
    | [] => ([], s2)
    end in
  match ip ++ fp with
  | [] => None
  | ds =>
      let '(e, s4) := parse_exponent s3 in
      Some (decimal_to_double neg (Z_of_digits ds)
                              (e - Z.of_nat (length fp)), s4)
  end.

(** [case_insensitive_match s t]: [t] (lower case) is a prefix of [s] up to
    case; the result is the rest of [s]. *)
Fixpoint case_insensitive_match (s t : list ascii) : option (list ascii) :=
  match t with
  | [] => Some s
  | ct :: t' =>
      match s with
      | cs :: s' =>
          if Ascii.eqb (Py_TOLOWER cs) ct
          then case_insensitive_match s' t' else None
      | [] => None
      end
  end.

Definition Py_parse_inf_or_nan (s : list ascii) : option (t * list ascii) :=
  let '(neg, s1) := parse_sign s in
  match case_insensitive_match s1 (list_ascii_of_string "inf") with
  | Some r =>
      match case_insensitive_match r (list_ascii_of_string "inity") with
      | Some r' => Some (S754_infinity neg, r')
      | None => Some (S754_infinity neg, r)
      end
  | None =>
      match case_insensitive_match s1 (list_ascii_of_string "nan") with
      | Some r => Some (S754_nan, r)
      | None => None
      end
  end.

(** [_PyOS_ascii_strtod]: a number, or else an infinity or a NaN. *)
Definition PyOS_ascii_strtod (s : list ascii) : option (t * list ascii) :=
  match dg_strtod s with
  | Some r => Some r
  | None => Py_parse_inf_or_nan s
  end.

(** [float_from_string_inner]: the whole text must have been read. *)
Definition float_from_string_inner (s : list ascii) : option t :=
  match PyOS_ascii_strtod s with
  | Some (x, []) => Some x
  | _ => None
  end.

Definition Py_string_to_number_with_underscores (s : list ascii)
  : option t :=
  if existsb is_underscore s then
    match drop_underscores "000"%char s with
    | Some dup => float_from_string_inner dup
    | None => None
    end
  else float_from_string_inner s.

(** The code points of a text given by its UTF-8 bytes.  Bytes that are not
    UTF-8 (no [str] has them) count as U+FFFD. *)
Definition continuation (c : ascii) : bool :=
  let n := N_of_ascii c in ((128 <=? n) && (n <? 192))%N.

Definition low6 (c : ascii) : N := (N_of_ascii c - 128)%N.

Fixpoint utf8_decode (s : list ascii) : list N :=
  match s with
  | [] => []
  | b :: r =>
      let n := N_of_ascii b in
      if (n <? 128)%N then n :: utf8_decode r
      else if ((192 <=? n) && (n <? 224))%N then
        match r with
        | c1 :: r1 =>
            if continuation c1
            then ((n - 192) * 64 + low6 c1)%N :: utf8_decode r1
            else 65533%N :: utf8_decode r
        | _ => 65533%N :: utf8_decode r
        end
      else if ((224 <=? n) && (n <? 240))%N then
        match r with
        | c1 :: c2 :: r2 =>
            if continuation c1 && continuation c2
            then (((n - 224) * 64 + low6 c1) * 64 + low6 c2)%N
                 :: utf8_decode r2
            else 65533%N :: utf8_decode r
        | _ => 65533%N :: utf8_decode r
        end
      else if ((240 <=? n) && (n <? 248))%N then
        match r with
        | c1 :: c2 :: c3 :: r3 =>
            if continuation c1 && continuation c2 && continuation c3
            then ((((n - 240) * 64 + low6 c1) * 64 + low6 c2) * 64
                  + low6 c3)%N :: utf8_decode r3
            else 65533%N :: utf8_decode r
        | _ => 65533%N :: utf8_decode r
        end
      else 65533%N :: utf8_decode r
  end.

(** [Py_UNICODE_ISSPACE] above ASCII: NEL, NBSP, the Ogham space mark, the
    spaces U+2000 to U+200A, the line and paragraph separators, the narrow
    NBSP, the mathematical space and the ideographic space. *)
Definition Py_UNICODE_ISSPACE (cp : N) : bool :=
  existsb (N.eqb cp)
    [133; 160; 5760; 8232; 8233; 8239; 8287; 12288]%N
  || ((8192 <=? cp) && (cp <=? 8202))%N.

(** The code points of the digit zero in the scripts that have decimal
    digits; the digits one to nine follow each of them. *)
Definition decimal_zeros : list N :=
  [1632; 1776; 1984; 2406; 2534; 2662; 2790; 2918; 3046; 3174; 3302; 3430;
   3558; 3664; 3792; 3872; 4160; 4240; 6112; 6160; 6470; 6608; 6784; 6800;
   6992; 7088; 7232; 7248; 42528; 43216; 43264; 43472; 43504; 43600; 44016;
   65296; 66720; 68912; 69734; 69872; 69942; 70096; 70384; 70736; 70864;
   71248; 71360; 71472; 71904; 72016; 72784; 73040; 73120; 92768; 92864;
   93008; 120782; 120792; 120802; 120812; 120822; 123200; 123632; 125264;
   130032]%N.

(** [Py_UNICODE_TODECIMAL] above ASCII. *)
Definition Py_UNICODE_TODECIMAL (cp : N) : option N :=
  match find (fun z => (z <=? cp) && (cp <? z + 10))%N decimal_zeros with
  | Some z => Some (cp - z)%N
  | None => None
  end.

(** The loop of [_PyUnicode_TransformDecimalAndSpaceToASCII]; it stops at
    the first character that is neither, leaving a question mark. *)
Fixpoint transform_code_points (cps : list N) : list ascii :=
  match cps with
  | [] => []
  | cp :: r =>
      if (cp <? 127)%N then ascii_of_N cp :: transform_code_points r
      else if Py_UNICODE_ISSPACE cp then " "%char :: transform_code_points r
      else
        match Py_UNICODE_TODECIMAL cp with
        | Some d => ascii_of_N (48 + d) :: transform_code_points r
        | None => ["?"%char]
        end
  end.

(** [_PyUnicode_TransformDecimalAndSpaceToASCII]: a text that is ASCII
    already is taken as it is. *)
Definition TransformDecimalAndSpaceToASCII (s : list ascii) : list ascii :=
  if forallb (fun c => (N_of_ascii c <? 128)%N) s then s
  else transform_code_points (utf8_decode s).

(** [PyFloat_FromString]: [None] stands for [ValueError]. *)
Definition PyFloat_FromString (v : string) : option t :=
  Py_string_to_number_with_underscores
    (strip (TransformDecimalAndSpaceToASCII (list_ascii_of_string v))).

(** The exact value of a finite float, as a rational. *)
Definition to_Q (x : t) : option Q :=
  match x with
  | S754_zero _ => Some 0%Q
  | S754_finite s m e =>
      let v := if 0 <=? e then inject_Z (Zpos m * 2 ^ e)
               else (Zpos m # Z.to_pos (2 ^ (- e)))%Q in
      Some (if s then Qopp v else v)
  | _ => None
  end.

(** [x < 0] as Python compares floats. *)
Definition negative (x : t) : bool := SFltb x (S754_zero false).

Definition isfinite (x : t) : bool :=
  match x with
  | S754_zero _ | S754_finite _ _ _ => true
  | _ => false
  end.

End PyFloat.

(** ** Values, messages and the world around the callbacks *)

(** What [context.user_data] and the cells of a row hold: a [str] or a
    [float]. *)
Inductive Value :=
| VStr (s : string)
| VFloat (x : PyFloat.t).

Definition Row := list Value.

Inductive Exception :=
| ValueError
| KeyError (key : string)
| AttributeError
| FileNotFoundError
| Fault (detail : string).
(* [Fault]: any other exception of the sheet client (an API error, a
   network error), with its message. *)

(** The parts of an f-string: literal text and interpolated values.  The
    rendering of an interpolated float ([str(amount)]) is not spelled out. *)
Inductive Piece :=
| Lit (s : string)
| Fmt (v : Value)
| FmtExc (e : Exception).

Inductive ReplyMarkup :=
| ReplyKeyboardMarkup (keyboard : list (list string)) (one_time_keyboard : bool)
| ReplyKeyboardRemove.

Record Reply := mkReply {
  msg_text : list Piece;
  msg_markup : option ReplyMarkup
}.

Inductive LogRecord :=
| LogInfo (msg : list Piece)
| LogError (msg : list Piece).

(** *** [datetime] and [strftime("%Y-%m-%d %H:%M:%S")]

    What [datetime.now()] gives, as far as the format prints it: the local
    wall-clock reading down to the second, with no time zone.  It does not
    tell two instants apart that read the same, within one second or when
    the local clock is set back. *)

Record datetime := mkDatetime {
  year : Z; month : Z; day : Z; hour : Z; minute : Z; second : Z
}.

Definition digit_char (d : Z) : ascii :=
  ascii_of_nat (Z.to_nat (48 + d mod 10)).

Definition zero_pad2 (n : Z) : list ascii :=
  [digit_char (n / 10); digit_char n].

Definition zero_pad4 (n : Z) : list ascii :=
  [digit_char (n / 1000); digit_char (n / 100)] ++ zero_pad2 n.

(** [dt.strftime("%Y-%m-%d %H:%M:%S")]: the year in four digits, the other
    fields in two, padded with zeros. *)
Definition strftime (dt : datetime) : string :=
  string_of_list_ascii
    (zero_pad4 (year dt) ++ ["-"%char] ++ zero_pad2 (month dt) ++ ["-"%char]
     ++ zero_pad2 (day dt) ++ [" "%char] ++ zero_pad2 (hour dt) ++ [":"%char]
     ++ zero_pad2 (minute dt) ++ [":"%char] ++ zero_pad2 (second dt)).

(** What [datetime.now()] can return: a time after the epoch, within the
    range of [datetime]. *)
Definition clock_reading (dt : datetime) : Prop :=
  1970 <= year dt <= 9999 /\ 1 <= month dt <= 12 /\ 1 <= day dt <= 31 /\
  0 <= hour dt < 24 /\ 0 <= minute dt < 60 /\ 0 <= second dt < 60.

(** *** The worksheet behind the [sheet] global

    The remote sheet is a grid of rows, top row first; a cell that holds the
    empty string is an empty cell.  [faults] schedules the outcome of the
    coming requests to the service, one per request: [None] for success,
    [Some detail] for a request that raises (no more entries: success). *)
Record Worksheet := mkWorksheet {
  grid : list Row;
  faults : list (option string)
}.

Definition empty_cell (v : Value) : bool :=
  match v with
  | VStr s => String.eqb s ""
  | VFloat _ => false
  end.

Fixpoint drop_while {A} (p : A -> bool) (l : list A) : list A :=
  match l with
  | x :: l' => if p x then drop_while p l' else l
  | [] => []
  end.

(** The values of a row as the service returns them: up to the last cell
    that is not empty. *)
Definition trim_row (r : Row) : Row := rev (drop_while empty_cell (rev r)).

Definition blank_row (r : Row) : bool := forallb empty_cell r.

(** The rows that hold data: the grid up to its last row that is not
    blank. *)
Definition data_rows (g : list Row) : list Row :=
  rev (drop_while blank_row (rev g)).

(** The world a callback runs in. *)
Record World := mkWorld {
  user_data : gmap string Value;   (* context.user_data *)
  sheet : option Worksheet;        (* the global [sheet]; [None] is Python's None *)
  clock : datetime;                (* what datetime.now() returns *)
  outbox : list Reply;             (* replies sent, oldest first *)
  log : list LogRecord;            (* records given to the logger *)
  append_calls : list Row          (* rows passed to sheet.append_row so far *)
}.

Definition with_user_data (d : gmap string Value) (w : World) : World :=
  mkWorld d (sheet w) (clock w) (outbox w) (log w) (append_calls w).
Definition with_sheet (s : option Worksheet) (w : World) : World :=
  mkWorld (user_data w) s (clock w) (outbox w) (log w) (append_calls w).
Definition with_clock (t : datetime) (w : World) : World :=
  mkWorld (user_data w) (sheet w) t (outbox w) (log w) (append_calls w).
Definition with_outbox (o : list Reply) (w : World) : World :=
  mkWorld (user_data w) (sheet w) (clock w) o (log w) (append_calls w).
Definition with_log (l : list LogRecord) (w : World) : World :=
  mkWorld (user_data w) (sheet w) (clock w) (outbox w) l (append_calls w).
Definition with_append_calls (c : list Row) (w : World) : World :=
  mkWorld (user_data w) (sheet w) (clock w) (outbox w) (log w) c.

(** ** The monad of the callbacks: state and Python exceptions

    A computation changes the world and either returns or raises; what it
    changed before raising stays changed. *)
Definition M (A : Type) : Type := World -> (Exception + A) * World.

#[global] Instance M_ret : MRet M := fun A a w => (inr a, w).

#[global] Instance M_bind : MBind M := fun A B k m w =>
  match m w with
  | (inl e, w') => (inl e, w')
  | (inr a, w') => k a w'
  end.

Definition raise {A} (e : Exception) : M A := fun w => (inl e, w).

(** [try: body  except <caught>: handler]; an exception that [caught]
    refuses goes on to the caller. *)
Definition try_except {A} (body : M A) (caught : Exception -> bool)
    (handler : Exception -> M A) : M A := fun w =>
  match body w with
  | (inl e, w') => if caught e then handler e w' else (inl e, w')
  | r => r
  end.

Definition is_ValueError (e : Exception) : bool :=
  match e with ValueError => true | _ => false end.
Definition is_FileNotFoundError (e : Exception) : bool :=
  match e with FileNotFoundError => true | _ => false end.
Definition is_Exception (e : Exception) : bool := true.

Definition modify (f : World -> World) : M unit := fun w => (inr tt, f w).
Definition gets {A} (f : World -> A) : M A := fun w => (inr (f w), w).

(** [await update.message.reply_text(text, reply_markup=markup)] *)
Definition reply_text (text : list Piece) (markup : option ReplyMarkup)
  : M unit :=
  modify (fun w => with_outbox (outbox w ++ [mkReply text markup]) w).

Definition logger_info (msg : list Piece) : M unit :=
  modify (fun w => with_log (log w ++ [LogInfo msg]) w).
Definition logger_error (msg : list Piece) : M unit :=
  modify (fun w => with_log (log w ++ [LogError msg]) w).

(** [context.user_data[key] = v] *)
Definition user_data_set (key : string) (v : Value) : M unit :=
  modify (fun w => with_user_data (<[key := v]> (user_data w)) w).

(** [context.user_data[key]] *)
Definition user_data_get (key : string) : M Value := fun w =>
  match user_data w !! key with
  | Some v => (inr v, w)
  | None => (inl (KeyError key), w)
  end.

(** [context.user_data.clear()] *)
Definition user_data_clear : M unit := modify (with_user_data ∅).

(** [float(text)] *)
Definition float (text : string) : M PyFloat.t :=
  match PyFloat.PyFloat_FromString text with
  | Some x => mret x
  | None => raise ValueError
  end.

(** [datetime.now()] *)
Definition datetime_now : M datetime := gets clock.

(** One request to the sheet service: the scheduled outcome is consumed. *)
Definition request {A} (k : Worksheet -> A * list Row) : M A := fun w =>
  match sheet w with
  | None => (inl AttributeError, w)
  | Some s =>
      match faults s with
      | Some detail :: rest =>
          (inl (Fault detail), with_sheet (Some (mkWorksheet (grid s) rest)) w)
      | outcome =>
          let '(a, g) := k s in
          (inr a, with_sheet (Some (mkWorksheet g (tl outcome))) w)
      end
  end.

(** [sheet.row_values(row)]: the cells of a row, rows counted from 1;
    [[]] when the row is empty or absent. *)
Definition row_values (row : nat) : M Row :=
  request (fun s => (trim_row (nth (pred row) (grid s) []), grid s)).

(** [sheet.append_row(values)]: the row goes below the last row of data. *)
Definition append_row (values : Row) : M unit :=
  (modify (fun w => with_append_calls (append_calls w ++ [values]) w);;
   request (fun s => (tt, data_rows (grid s) ++ [values]))).

(** ** The callbacks of [bot.py] *)

(** The message of an incoming update: its text and, when the text starts
    with a bot command ([/start], [/Cancel], [/help@other_bot]), the command
    as it was typed between the slash and the end of the command, without
    the [@name] of this bot when it is addressed to it by name.  A command
    addressed to another bot keeps that bot's [@name], and so has the name
    of no command of this bot. *)
Record Update := mkUpdate {
  message_text : string;
  message_command : option string
}.

(** States for conversation: [NAME, VOUCHER_TYPE, VOUCHER_AMOUNT = range(3)];
    [END] is [ConversationHandler.END]. *)
Definition NAME : Z := 0.
Definition VOUCHER_TYPE : Z := 1.
Definition VOUCHER_AMOUNT : Z := 2.
Definition END : Z := -1.

Definition welcome_text : list Piece :=
  [Lit "Selamat datang di Bot Farm House! 🏡

Saya akan membantu Anda mencatat data voucher.

Silakan masukkan nama Anda:"].

Definition start (update : Update) : M Z :=
  reply_text welcome_text None;;
  mret NAME.

Definition voucher_types : list (list string) :=
  [ ["Amazon"; "eBay"; "Target"];
    ["Walmart"; "Best Buy"];
    ["Nike"; "Adidas"; "H&M"];
    ["Sephora"; "Ulta Beauty"];
    ["Spotify"; "Netflix"; "Xbox"];
    ["PlayStation"; "Steam"];
    ["Starbucks"; "Domino's"; "Uber Eats"];
    ["Other"] ].

Definition get_name (update : Update) : M Z :=
  user_data_set "name" (VStr (message_text update));;
  let reply_markup := ReplyKeyboardMarkup voucher_types true in
  reply_text
    [Lit "Terima kasih, "; Fmt (VStr (message_text update)); Lit "!

Pilih atau ketik jenis voucher:"]
    (Some reply_markup);;
  mret VOUCHER_TYPE.

Definition amount_prompt : list Piece :=
  [Lit "Berapa jumlah voucher dalam dollar? (contoh: 50)
Masukkan hanya angka:"].

Definition get_voucher_type (update : Update) : M Z :=
  user_data_set "voucher_type" (VStr (message_text update));;
  reply_text amount_prompt (Some ReplyKeyboardRemove);;
  mret VOUCHER_AMOUNT.

Definition success_text (current_date : string) (name voucher_type : Value)
    (amount : PyFloat.t) : list Piece :=
  [Lit "✅ Data berhasil disimpan!

📅 Tanggal: "; Fmt (VStr current_date); Lit "
👤 Nama: "; Fmt name; Lit "
🎫 Jenis Voucher: "; Fmt voucher_type; Lit "
💵 Jumlah: $"; Fmt (VFloat amount); Lit "

Ketik /start untuk menambah data baru atau /cancel untuk berhenti."].

Definition save_failed_text : list Piece :=
  [Lit "❌ Maaf, terjadi kesalahan saat menyimpan ke spreadsheet.
Silakan coba lagi atau hubungi admin."].

Definition not_connected_text : list Piece :=
  [Lit "❌ Koneksi ke Google Sheets belum tersedia.
Silakan periksa konfigurasi."].

Definition invalid_amount_text : list Piece :=
  [Lit "❌ Input tidak valid. Mohon masukkan angka saja.
Contoh: 50 atau 25.5"].

(** [get_voucher_amount] from "Get current date" to its [return], that is,
    what follows [context.user_data['amount'] = amount]. *)
Definition save_voucher (amount : PyFloat.t) : M Z :=
  now ← datetime_now;
  let current_date := strftime now in
  name ← user_data_get "name";
  voucher_type ← user_data_get "voucher_type";
  connected ← gets (fun w => bool_decide (is_Some (sheet w)));
  (if connected : bool then
     try_except
       (append_row [VStr current_date; name; voucher_type; VFloat amount];;
        reply_text (success_text current_date name voucher_type amount) None)
       is_Exception
       (fun e =>
          logger_error [Lit "Error saving to sheet: "; FmtExc e];;
          reply_text save_failed_text None)
   else reply_text not_connected_text None);;
  user_data_clear;;
  mret END.

Definition get_voucher_amount (update : Update) : M Z :=
  try_except
    (amount ← float (message_text update);
     user_data_set "amount" (VFloat amount);;
     save_voucher amount)
    is_ValueError
    (fun _ =>
       reply_text invalid_amount_text None;;
       mret VOUCHER_AMOUNT).

Definition cancel_text : list Piece :=
  [Lit "Operasi dibatalkan. Ketik /start untuk memulai lagi."].

Definition cancel (update : Update) : M Z :=
  reply_text cancel_text (Some ReplyKeyboardRemove);;
  user_data_clear;;
  mret END.

Definition help_text : list Piece :=
  [Lit "📖 Bantuan Bot Farm House

Perintah yang tersedia:
/start - Mulai menambahkan data voucher
/cancel - Batalkan operasi saat ini
/help - Tampilkan pesan bantuan ini

Bot ini akan mencatat:
• Tanggal (otomatis)
• Nama
• Jenis Voucher
• Jumlah dalam Dollar"].

Definition help_command (update : Update) : M unit :=
  reply_text help_text None.

(** ** Sheet initialisation (module level) *)

Definition HEADER : Row :=
  [VStr "Tanggal"; VStr "Nama"; VStr "Jenis Voucher"; VStr "Jumlah (Dollar)"].

(** "Setup header if needed":
    [if sheet.row_values(1) == []: sheet.append_row([...])]. *)
Definition ensureHeader : M unit :=
  first_row ← row_values 1;
  match first_row with
  | [] => append_row HEADER
  | _ => mret tt
  end.

(** [sheet = setup_google_sheets()]: credentials, client and spreadsheet
    are the environment's; [cloud] is what they come to, an exception or
    the worksheet. *)
Definition setup_google_sheets (cloud : Exception + Worksheet) : M unit :=
  match cloud with
  | inl e => raise e
  | inr s => modify (with_sheet (Some s))
  end.

(** The [try] that initialises [sheet]; neither handler raises, so the two
    [except] clauses are nested here. *)
Definition initialize_sheet (cloud : Exception + Worksheet) : M unit :=
  try_except
    (try_except
       (setup_google_sheets cloud;;
        ensureHeader;;
        logger_info [Lit "Google Sheets connected successfully!"])
       is_FileNotFoundError
       (fun _ =>
          logger_error [Lit "credentials.json not found. Please set GOOGLE_APPLICATION_CREDENTIALS_JSON environment variable."];;
          modify (with_sheet None)))
    is_Exception
    (fun e =>
       logger_error [Lit "Error setting up Google Sheets: "; FmtExc e];;
       logger_info [Lit "Bot will continue, but data won't be saved to sheets."];;
       modify (with_sheet None)).

(** ** Dispatch: [ConversationHandler] and [Application]

    The handlers of python-telegram-bot 20, whose interface [main] uses
    ([Application.builder], [filters.TEXT]), on the messages of a user. *)

Module filters.
(** [filters.TEXT]: the message has a text that is not empty. *)
Definition TEXT (u : Update) : bool := negb (String.eqb (message_text u) "").
(** [filters.COMMAND]: the message starts with a bot command. *)
Definition COMMAND (u : Update) : bool :=
  match message_command u with Some _ => true | None => false end.
End filters.

Record Handler (R : Type) := mkHandler {
  check_update : Update -> bool;
  callback : Update -> M R
}.
Arguments mkHandler {R}.
Arguments check_update {R}.
Arguments callback {R}.

(** [str.lower] on the name of a command.  A command is made of ASCII
    letters, digits and underscores (and [@] before the name of a bot), on
    which [str.lower] is the lower-casing of the ASCII letters. *)
Definition lower (s : string) : string :=
  string_of_list_ascii (map PyFloat.Py_TOLOWER (list_ascii_of_string s)).
Arguments lower : simpl never.

(** [CommandHandler(command, callback)]: the handler keeps its command
    lower-cased and compares it with the lower-cased command of the
    message, so [/START] is answered as [/start] is. *)
Definition CommandHandler {R} (command : string) (cb : Update -> M R)
  : Handler R :=
  mkHandler
    (fun u => bool_decide (lower <$> message_command u = Some (lower command)))
    cb.

Definition MessageHandler {R} (flt : Update -> bool) (cb : Update -> M R)
  : Handler R :=
  mkHandler flt cb.

Record ConversationHandler := mkConversationHandler {
  entry_points : list (Handler Z);
  states : gmap Z (list (Handler Z));
  fallbacks : list (Handler Z);
  allow_reentry : bool
}.

(** [filters.TEXT & ~filters.COMMAND] *)
Definition text_only (u : Update) : bool :=
  filters.TEXT u && negb (filters.COMMAND u).

(** The conversation handler of [main]; [allow_reentry] is left at its
    default, [False]. *)
Definition conv_handler : ConversationHandler :=
  mkConversationHandler
    [CommandHandler "start" start]
    (<[NAME := [MessageHandler text_only get_name]]>
     (<[VOUCHER_TYPE := [MessageHandler text_only get_voucher_type]]>
      (<[VOUCHER_AMOUNT := [MessageHandler text_only get_voucher_amount]]> ∅)))
    [CommandHandler "cancel" cancel]
    false.

(** The application: the world, the state of the user's conversation
    ([None]: no conversation is going on) and the exceptions that escaped a
    callback. *)
Record App := mkApp {
  world : World;
  conversation : option Z;
  unhandled : list Exception
}.

Definition first_match {R} (hs : list (Handler R)) (u : Update)
  : option (Handler R) :=
  find (fun h => check_update h u) hs.

(** [ConversationHandler.check_update]: entry points count only when no
    conversation is going on (or with [allow_reentry]); then come the
    handlers of the current state, then the fallbacks. *)
Definition conv_check_update (c : ConversationHandler) (state : option Z)
    (u : Update) : option (Handler Z) :=
  let entry :=
    match state with
    | None => first_match (entry_points c) u
    | Some _ =>
        if allow_reentry c then first_match (entry_points c) u else None
    end in
  match entry, state with
  | Some h, _ => Some h
  | None, None => None
  | None, Some s =>
      match first_match (default [] (states c !! s)) u with
      | Some h => Some h
      | None => first_match (fallbacks c) u
      end
  end.

(** [ConversationHandler.handle_update]: the value the callback returns is
    the new state, [END] closes the conversation; when the callback raises
    the state stays. *)
Definition conv_handle_update (h : Handler Z) (u : Update) (a : App) : App :=
  match callback h u (world a) with
  | (inr new_state, w) =>
      mkApp w (if new_state =? END then None else Some new_state) (unhandled a)
  | (inl e, w) => mkApp w (conversation a) (unhandled a ++ [e])
  end.

Definition plain_handle_update (h : Handler unit) (u : Update) (a : App)
  : App :=
  match callback h u (world a) with
  | (inr _, w) => mkApp w (conversation a) (unhandled a)
  | (inl e, w) => mkApp w (conversation a) (unhandled a ++ [e])
  end.

Inductive AppHandler :=
| Conversation (c : ConversationHandler)
| Plain (h : Handler unit).

(** [application.add_handler(conv_handler)],
    [application.add_handler(CommandHandler("help", help_command))]. *)
Definition handlers : list AppHandler :=
  [Conversation conv_handler; Plain (CommandHandler "help" help_command)].

(** [Application.process_update]: the first handler that accepts the update
    handles it. *)
Fixpoint dispatch (hs : list AppHandler) (u : Update) (a : App) : App :=
  match hs with
  | [] => a
  | Conversation c :: hs' =>
      match conv_check_update c (conversation a) u with
      | Some h => conv_handle_update h u a
      | None => dispatch hs' u a
      end
  | Plain h :: hs' =>
      if check_update h u then plain_handle_update h u a
      else dispatch hs' u a
  end.

Definition process_update (u : Update) (a : App) : App := dispatch handlers u a.

(** [main]: without a token nothing is served; with one, the application
    polls with the two handlers above. *)
Definition main (token : option string) : option (list AppHandler) :=
  match token with
  | None => None
  | Some t => if String.eqb t "" then None else Some handlers
  end.

(** An update arrives at time [now]. *)
Definition deliver (a : App) (ev : datetime * Update) : App :=
  process_update (snd ev)
    (mkApp (with_clock (fst ev) (world a)) (conversation a) (unhandled a)).

Definition run (evs : list (datetime * Update)) (a : App) : App :=
  fold_left deliver evs a.

(** The process right after start-up: [initialize_sheet] has run at [t0]
    on an empty world, no conversation is going on. *)
Definition blank_world (t0 : datetime) : World :=
  mkWorld ∅ None t0 [] [] [].

Definition boot (cloud : Exception + Worksheet) (t0 : datetime) : App :=
  mkApp (snd (initialize_sheet cloud (blank_world t0))) None [].

Definition command (c : string) : Update := mkUpdate ("/" +:+ c) (Some c).
Definition text_message (s : string) : Update := mkUpdate s None.


(** ** Reachable states of one conversation

    The states that the process comes to when all its updates are new
    messages of one user in one chat: then there is one conversation and
    one dict of scratch data, and an [App] is the whole of it.  What the
    process does with several chats and users, and with updates that are
    not new messages, is [Service] below. *)

Inductive reachable : App -> Prop :=
| reachable_boot cloud t0 : reachable (boot cloud t0)
| reachable_deliver a ev : reachable a -> reachable (deliver a ev).

(** ** Several chats and users

    [ConversationHandler] is built with its defaults [per_chat] and
    [per_user]: it keeps one state for each pair of a chat and a user.
    [context.user_data] is one dict for each user, the same in whatever
    chat the user writes.  The sheet, the clock, the replies and the log
    are the process's. *)

(** The updates that [run_polling(allowed_updates=Update.ALL_TYPES)]
    brings in: a new message ([update.message]) of a user in a chat; an
    edited message ([update.edited_message], with [update.message] being
    [None]) of a user in a chat; and the others (channel posts, callback
    queries, membership changes and so on), which neither the conversation
    handler nor a [CommandHandler] accepts. *)
Inductive Incoming :=
| Message (chat user : Z) (u : Update)
| EditedMessage (chat user : Z) (u : Update)
| OtherUpdate.

(** [update.effective_chat.id] and [update.effective_user.id]. *)
Definition sender (i : Incoming) : option (Z * Z) :=
  match i with
  | Message chat user _ | EditedMessage chat user _ => Some (chat, user)
  | OtherUpdate => None
  end.

Record Service := mkService {
  (* [ConversationHandler._conversations] *)
  conversations : gmap (Z * Z) Z;
  (* [application.user_data] *)
  users : gmap Z (gmap string Value);
  (* the sheet, the clock, the replies, the log and the appends *)
  common : World;
  (* the exceptions that left a callback *)
  escaped : list Exception
}.

(** [application.user_data] is a [defaultdict(dict)]. *)
Definition user_data_of (s : Service) (user : Z) : gmap string Value :=
  default ∅ (users s !! user).

(** The application as the handlers see it on an update of [user] in
    [chat]. *)
Definition session (s : Service) (chat user : Z) : App :=
  mkApp (with_user_data (user_data_of s user) (common s))
        (conversations s !! (chat, user)) (escaped s).

(** ... and what they leave behind: the state of that conversation (the
    key is dropped when it ends), the dict of that user, the rest. *)
Definition commit (s : Service) (chat user : Z) (a : App) : Service :=
  mkService
    match conversation a with
    | Some state => <[(chat, user) := state]> (conversations s)
    | None => delete (chat, user) (conversations s)
    end
    (<[user := user_data (world a)]> (users s))
    (with_user_data ∅ (world a))
    (unhandled a).

(** A callback of this program on an update whose [update.message] is
    [None].  Each of the six reads an attribute of [update.message] before
    it does anything else ([update.message.reply_text] in [start], [cancel]
    and [help_command], lines 73, 169 and 179; [update.message.text] on the
    right of the assignment in [get_name] and [get_voucher_type], lines 83
    and 108, and as the argument of [float] in [get_voucher_amount], line
    121, where [except ValueError] does not catch it): AttributeError, and
    nothing done. *)
Definition without_message {R} (h : Handler R) : Handler R :=
  mkHandler (check_update h) (fun _ => raise AttributeError).

(** An edited message goes through the same handlers as a new one: the
    filters and the command are read from [update.effective_message], and
    [CommandHandler] takes edited messages as well. *)
Definition process_edited (u : Update) (a : App) : App :=
  match conv_check_update conv_handler (conversation a) u with
  | Some h => conv_handle_update (without_message h) u a
  | None =>
      let h := CommandHandler "help" help_command in
      if check_update h u then plain_handle_update (without_message h) u a
      else a
  end.

(** One update, arriving at time [fst ev]. *)
Definition serve (s : Service) (ev : datetime * Incoming) : Service :=
  match snd ev with
  | Message chat user u =>
      commit s chat user (deliver (session s chat user) (fst ev, u))
  | EditedMessage chat user u =>
      commit s chat user (process_edited u (session s chat user))
  | OtherUpdate => s
  end.

Definition serve_all (evs : list (datetime * Incoming)) (s : Service)
  : Service :=
  fold_left serve evs s.

(** The process right after start-up. *)
Definition start_service (cloud : Exception + Worksheet) (t0 : datetime)
  : Service :=
  mkService ∅ ∅ (world (boot cloud t0)) [].

(** ** Notions used in the statements *)

(** *** The transitions of the application

    Each update either leaves the application as it is or takes one of
    the transitions below; this is the table that [handlers] encodes. *)
Inductive step (u : Update) : App -> App -> Prop :=
| step_start w un :
    lower <$> message_command u = Some "start" ->
    step u (mkApp w None un)
         (mkApp (with_outbox (outbox w ++ [mkReply welcome_text None]) w)
                (Some NAME) un)
| step_name w un :
    text_only u = true ->
    step u (mkApp w (Some NAME) un)
         (mkApp (snd (get_name u w)) (Some VOUCHER_TYPE) un)
| step_voucher_type w un :
    text_only u = true ->
    step u (mkApp w (Some VOUCHER_TYPE) un)
         (mkApp (snd (get_voucher_type u w)) (Some VOUCHER_AMOUNT) un)
| step_voucher_amount w un :
    text_only u = true ->
    step u (mkApp w (Some VOUCHER_AMOUNT) un)
         (conv_handle_update (MessageHandler text_only get_voucher_amount) u
            (mkApp w (Some VOUCHER_AMOUNT) un))
| step_cancel w s un :
    lower <$> message_command u = Some "cancel" ->
    step u (mkApp w (Some s) un)
         (mkApp (snd (cancel u w)) None un)
| step_help w st un :
    lower <$> message_command u = Some "help" ->
    step u (mkApp w st un)
         (mkApp (with_outbox (outbox w ++ [mkReply help_text None]) w) st un)
| step_ignored a :
    step u a a.

(** The shape of the scratch data in each state of the conversation. *)
Inductive session_ok : option Z -> gmap string Value -> Prop :=
| ok_idle : session_ok None ∅
| ok_name : session_ok (Some NAME) ∅
| ok_voucher_type (n : string) :
    session_ok (Some VOUCHER_TYPE) (<["name" := VStr n]> ∅)
| ok_voucher_amount (n v : string) :
    session_ok (Some VOUCHER_AMOUNT)
               (<["voucher_type" := VStr v]> (<["name" := VStr n]> ∅)).

(** 25.5 as a double: [51 * 2^47 * 2^-48]. *)
Definition amount_25_5 : PyFloat.t := S754_finite false 7177611906121728 (-48).

(** A reading of the clock, for the concrete runs below. *)
Definition sample_time : datetime := mkDatetime 2024 5 17 13 45 9.

(** A process that connected to an empty sheet. *)
Definition fresh_app : App := boot (inr (mkWorksheet [] [])) sample_time.

(** What C2 asks of [/start] in an application state: the scratch data is
    empty afterwards, the welcome prompt went out, the state is [NAME]. *)
Definition start_resets (a : App) : Prop :=
  let a' := process_update (command "start") a in
  user_data (world a') = ∅ /\
  outbox (world a') = outbox (world a) ++ [mkReply welcome_text None] /\
  conversation a' = Some NAME.

(** The application after [/start] and a name. *)
Definition after_name : App :=
  run [(sample_time, command "start"); (sample_time, text_message "Alice")]
      fresh_app.

Definition literal (p : Piece) : bool :=
  match p with Lit _ => true | _ => false end.

(** A process that could not set the sheet up, and the conversations that
    have come to the amount. *)
Definition offline_app : App := boot (inl FileNotFoundError) sample_time.

Definition awaiting_amount (a : App) : App :=
  run [(sample_time, command "start"); (sample_time, text_message "Alice");
       (sample_time, text_message "Netflix")] a.

(** The text, white space apart, starts with a minus sign. *)
Definition leading_minus (text : string) : bool :=
  fst (PyFloat.parse_sign
         (PyFloat.strip
            (PyFloat.TransformDecimalAndSpaceToASCII
               (list_ascii_of_string text)))).

(** -5 as a double. *)
Definition minus_five : PyFloat.t := S754_finite true 5629499534213120 (-50).

(** A sheet whose first row is blank, with a row of data below it. *)
Definition blank_first_row : Worksheet :=
  mkWorksheet [[]; [VStr "earlier data"]] [].

Definition connected (s : Worksheet) : World :=
  with_sheet (Some s) (blank_world sample_time).

(** The text is of the form [dddd-dd-dd dd:dd:dd]. *)
Definition timestamp_format (s : string) : bool :=
  match list_ascii_of_string s with
  | [y1; y2; y3; y4; d1; m1; m2; d2; a1; a2; sp; h1; h2; c1; n1; n2; c2;
     s1; s2] =>
      forallb PyFloat.Py_ISDIGIT
        [y1; y2; y3; y4; m1; m2; a1; a2; h1; h2; n1; n2; s1; s2]
      && Ascii.eqb d1 "-" && Ascii.eqb d2 "-" && Ascii.eqb sp " "
      && Ascii.eqb c1 ":" && Ascii.eqb c2 ":"
  | _ => false
  end.

(** The date and time that a text of that form denotes. *)
Definition read_timestamp (s : string) : option datetime :=
  match list_ascii_of_string s with
  | [y1; y2; y3; y4; _; m1; m2; _; a1; a2; _; h1; h2; _; n1; n2; _; s1; s2] =>
      Some (mkDatetime (PyFloat.Z_of_digits [y1; y2; y3; y4])
              (PyFloat.Z_of_digits [m1; m2]) (PyFloat.Z_of_digits [a1; a2])
              (PyFloat.Z_of_digits [h1; h2]) (PyFloat.Z_of_digits [n1; n2])
              (PyFloat.Z_of_digits [s1; s2]))
  | _ => None
  end.

(** The labels that C8 names. *)
Definition english_header : Row :=
  [VStr "Date"; VStr "Name"; VStr "Voucher Type"; VStr "Amount"].

(** Digits, or digits, a point and digits. *)
Definition plain_number (text : string) : bool :=
  let '(ip, r) := PyFloat.span_digits (list_ascii_of_string text) in
  match ip, r with
  | _ :: _, [] => true
  | _ :: _, c :: r' =>
      Ascii.eqb c "." &&
      match PyFloat.span_digits r' with
      | (_ :: _, []) => true
      | _ => false
      end
  | [], _ => false
  end.

(** The text is taken as the amount [x] in state [VOUCHER_AMOUNT]: the
    conversation ends, [append_row] is called with [x] in the fourth column
    when the sheet is connected, and the one reply that goes out is not the
    validation prompt. *)
Definition accepted_as (text : string) (x : PyFloat.t) : Prop :=
  PyFloat.PyFloat_FromString text = Some x /\
  forall (w : World) (un : list Exception) (n v : Value),
    user_data w !! "name" = Some n ->
    user_data w !! "voucher_type" = Some v ->
    let a' := process_update (text_message text)
                (mkApp w (Some VOUCHER_AMOUNT) un) in
    conversation a' = None /\
    (forall s, sheet w = Some s ->
       append_calls (world a') =
       append_calls w ++ [[VStr (strftime (clock w)); n; v; VFloat x]]) /\
    exists r, outbox (world a') = outbox w ++ [r] /\
              msg_text r <> invalid_amount_text.

(** ** [setup_google_sheets], up to the worksheet it returns

    The calls into [os], [json], [google.oauth2] and [gspread] are the
    environment's: each returns a value or raises.  [environ] is the process
    environment. *)
Section Connect.

Variables Json Credentials Client : Type.
Variable json_loads : string -> Exception + Json.
Variable from_service_account_info :
  Json -> list string -> Exception + Credentials.
Variable from_service_account_file :
  string -> list string -> Exception + Credentials.
Variable authorize : Credentials -> Exception + Client.
(* [client.open(name).sheet1] *)
Variable open_sheet1 : Client -> option string -> Exception + Worksheet.

Definition scope : list string :=
  ["https://spreadsheets.google.com/feeds";
   "https://www.googleapis.com/auth/drive"].

(** [if creds_json:] holds for a value that is set and not empty. *)
Definition truthy (v : option string) : bool :=
  match v with
  | Some t => negb (String.eqb t "")
  | None => false
  end.

(** The credentials: from the JSON in the environment when there is one,
    from the credentials file otherwise. *)
Definition load_credentials (environ : gmap string string)
  : Exception + Credentials :=
  let creds_json := environ !! "GOOGLE_APPLICATION_CREDENTIALS_JSON" in
  if truthy creds_json then
    match json_loads (default "" creds_json) with
    | inl e => inl e
    | inr creds_dict => from_service_account_info creds_dict scope
    end
  else
    from_service_account_file
      (default "credentials.json" (environ !! "GOOGLE_CREDENTIALS_FILE"))
      scope.

(** What [setup_google_sheets()] returns or raises. *)
Definition setup_google_sheets_result (environ : gmap string string)
  : Exception + Worksheet :=
  match load_credentials environ with
  | inl e => inl e
  | inr credentials =>
      match authorize credentials with
      | inl e => inl e
      | inr client => open_sheet1 client (environ !! "SPREADSHEET_NAME")
      end
  end.

End Connect.

(** What one update may do to the sheet and to the list of appends: nothing,
    or one [append_row] call that raises, or one that adds its row below the
    data. *)
Inductive store_step (w w' : World) : Prop :=
| store_same :
    sheet w' = sheet w -> append_calls w' = append_calls w ->
    store_step w w'
| store_fault s detail rest row :
    sheet w = Some s -> faults s = Some detail :: rest ->
    sheet w' = Some (mkWorksheet (grid s) rest) ->
    append_calls w' = append_calls w ++ [row] ->
    store_step w w'
| store_append s row :
    sheet w = Some s -> hd None (faults s) = None ->
    length row = 4%nat -> blank_row row = false ->
    sheet w' = Some (mkWorksheet (data_rows (grid s) ++ [row])
                       (tl (faults s))) ->
    append_calls w' = append_calls w ++ [row] ->
    store_step w w'.

(** The updates of a user who keeps sending texts. *)
Definition texts (now : datetime) (l : list string)
  : list (datetime * Update) :=
  map (fun s => (now, text_message s)) l.

(** *** Chats and users *)

(** What C9 asks of the scratch data [d] of a user who has a conversation
    in state [st] ([None] when there is none): a voucher type only with a
    name, an amount only with a voucher type, name and voucher type both
    there while the amount is awaited, and nothing left over when no
    conversation is going on or one has just been opened. *)
Definition fields_in_order (st : option Z) (d : gmap string Value) : Prop :=
  (is_Some (d !! "voucher_type") -> is_Some (d !! "name")) /\
  (is_Some (d !! "amount") -> is_Some (d !! "voucher_type")) /\
  (st = Some VOUCHER_AMOUNT ->
   is_Some (d !! "name") /\ is_Some (d !! "voucher_type")) /\
  (st = None -> d = ∅) /\
  (st = Some NAME -> d = ∅).

(** The update is none of [user] in a chat other than [chat]. *)
Definition in_one_chat (chat user : Z) (i : Incoming) : bool :=
  match sender i with
  | Some (c, u) => negb (bool_decide (u = user)) || bool_decide (c = chat)
  | None => true
  end.

(** The update is a new message of a user in the chat [home user]. *)
Definition new_message_at (home : Z -> Z) (i : Incoming) : bool :=
  match i with
  | Message chat user _ => bool_decide (chat = home user)
  | _ => false
  end.

(** A process that connected to an empty sheet. *)
Definition fresh_service : Service :=
  start_service (inr (mkWorksheet [] [])) sample_time.

(** User 7 fills the form in chat 1 up to the amount, then fills and sends
    another one in chat 2. *)
Definition two_chats : list (datetime * Incoming) :=
  map (fun i => (sample_time, i))
    [Message 1 7 (command "start"); Message 1 7 (text_message "Alice");
     Message 1 7 (text_message "Netflix");
     Message 2 7 (command "start"); Message 2 7 (text_message "Bob");
     Message 2 7 (text_message "Steam"); Message 2 7 (text_message "10")].

(** Users 7 and 8, each in a chat of their own; 8 also edits a message. *)
Definition two_users : list (datetime * Incoming) :=
  map (fun i => (sample_time, i))
    [Message 1 7 (command "start"); Message 2 8 (command "start");
     Message 1 7 (text_message "Alice"); Message 2 8 (text_message "Bob");
     EditedMessage 2 8 (text_message "Bobby");
     Message 1 7 (text_message "Netflix"); OtherUpdate].

(** Users 7 and 8 fill their forms in turns, 7 in chat 1 and 8 in chat 2. *)
Definition forms_in_turns : list (datetime * Incoming) :=
  map (fun i => (sample_time, i))
    [Message 1 7 (command "start"); Message 2 8 (command "start");
     Message 1 7 (text_message "Alice"); Message 2 8 (text_message "Bob");
     Message 1 7 (text_message "Netflix"); Message 2 8 (text_message "Steam");
     Message 1 7 (text_message "12xyz"); Message 2 8 (text_message "10");
     Message 1 7 (text_message "25.5")].

(** 20 as a double. *)
Definition twenty : PyFloat.t := S754_finite false 5629499534213120 (-48).

(** ** Properties of the callbacks *)

Arguments strftime : simpl never.
Arguments success_text : simpl never.
Arguments data_rows : simpl never.
Arguments trim_row : simpl never.

(** *** [float] on some texts *)

Example float_tenth :
  PyFloat.PyFloat_FromString "0.1" =
  Some (S754_finite false 7205759403792794 (-56)).
Proof. vm_compute; reflexivity. Qed.

Example float_underscores :
  PyFloat.PyFloat_FromString "1_000.5" =
  Some (S754_finite false 8800491068719104 (-43)).
Proof. vm_compute; reflexivity. Qed.

Example float_signed_infinity :
  PyFloat.PyFloat_FromString " -Infinity" = Some (S754_infinity true).
Proof. vm_compute; reflexivity. Qed.

Example float_overflow :
  PyFloat.PyFloat_FromString "1e400" = Some (S754_infinity false).
Proof. vm_compute; reflexivity. Qed.

Example float_underflow :
  PyFloat.PyFloat_FromString "2e-324" = Some (S754_zero false).
Proof. vm_compute; reflexivity. Qed.

(** Digits of other scripts and the white space of Unicode are taken:
    Arabic-Indic digits, full-width digits, a no-break space (U+00A0, the
    bytes 194 and 160) before the number.  The minus sign U+2212 is not. *)
Example float_other_scripts :
  map PyFloat.PyFloat_FromString
    ["٥٠"; "５０.５"; String "194"%char (String "160"%char "50"); "−5"] =
  [Some (S754_finite false 7036874417766400 (-47));
   Some (S754_finite false 7107243161944064 (-47));
   Some (S754_finite false 7036874417766400 (-47));
   None].
Proof. vm_compute; reflexivity. Qed.

Example float_refused :
  map PyFloat.PyFloat_FromString
    ["fifty"; "1__0"; "_1"; "1_"; "1e"; "."; "0x10"; "infinit"; "1 2"; "   "]
  = repeat None 10.
Proof. vm_compute; reflexivity. Qed.

Lemma start_eq u w :
  start u w = (inr NAME, with_outbox (outbox w ++ [mkReply welcome_text None]) w).
Proof. reflexivity. Qed.

Lemma get_name_eq u w :
  get_name u w =
  (inr VOUCHER_TYPE,
   mkWorld (<["name" := VStr (message_text u)]> (user_data w)) (sheet w)
     (clock w)
     (outbox w ++
      [mkReply [Lit "Terima kasih, "; Fmt (VStr (message_text u)); Lit "!

Pilih atau ketik jenis voucher:"]
         (Some (ReplyKeyboardMarkup voucher_types true))])
     (log w) (append_calls w)).
Proof. reflexivity. Qed.

Lemma get_voucher_type_eq u w :
  get_voucher_type u w =
  (inr VOUCHER_AMOUNT,
   mkWorld (<["voucher_type" := VStr (message_text u)]> (user_data w))
     (sheet w) (clock w)
     (outbox w ++ [mkReply amount_prompt (Some ReplyKeyboardRemove)])
     (log w) (append_calls w)).
Proof. reflexivity. Qed.

Lemma cancel_eq u w :
  cancel u w =
  (inr END,
   mkWorld ∅ (sheet w) (clock w)
     (outbox w ++ [mkReply cancel_text (Some ReplyKeyboardRemove)])
     (log w) (append_calls w)).
Proof. reflexivity. Qed.

Lemma get_voucher_amount_rejects u w :
  PyFloat.PyFloat_FromString (message_text u) = None ->
  get_voucher_amount u w =
  (inr VOUCHER_AMOUNT,
   with_outbox (outbox w ++ [mkReply invalid_amount_text None]) w).
Proof.
  intros H. unfold get_voucher_amount, try_except, float, mbind, M_bind.
  rewrite H. reflexivity.
Qed.

Lemma get_voucher_amount_accepts u w x n v :
  PyFloat.PyFloat_FromString (message_text u) = Some x ->
  user_data w !! "name" = Some n ->
  user_data w !! "voucher_type" = Some v ->
  get_voucher_amount u w =
  (inr END,
   let row := [VStr (strftime (clock w)); n; v; VFloat x] in
   match sheet w with
   | None =>
       mkWorld ∅ None (clock w)
         (outbox w ++ [mkReply not_connected_text None])
         (log w) (append_calls w)
   | Some s =>
       match faults s with
       | Some detail :: rest =>
           mkWorld ∅ (Some (mkWorksheet (grid s) rest)) (clock w)
             (outbox w ++ [mkReply save_failed_text None])
             (log w ++ [LogError [Lit "Error saving to sheet: ";
                                  FmtExc (Fault detail)]])
             (append_calls w ++ [row])
       | outcome =>
           mkWorld ∅
             (Some (mkWorksheet (data_rows (grid s) ++ [row]) (tl outcome)))
             (clock w)
             (outbox w ++
              [mkReply (success_text (strftime (clock w)) n v x) None])
             (log w) (append_calls w ++ [row])
       end
   end).
Proof.
  intros Hx Hn Hv.
  unfold get_voucher_amount, try_except, float, mbind, M_bind.
  rewrite Hx. cbn.
  unfold save_voucher, user_data_get, mbind, M_bind. cbn.
  rewrite lookup_insert_ne by done. rewrite Hn. cbn.
  rewrite lookup_insert_ne by done. rewrite Hv. cbn.
  destruct (sheet w) as [s|] eqn:Hs; cbn.
  - unfold try_except, append_row, request, modify, mbind, M_bind. cbn.
    rewrite Hs.
    destruct (faults s) as [|[d|] rest] eqn:Hf; cbn; reflexivity.
  - unfold with_user_data, with_outbox; cbn. rewrite Hs. reflexivity.
Qed.

(** ** Properties of the dispatch *)

Lemma states_NAME :
  states conv_handler !! NAME = Some [MessageHandler text_only get_name].
Proof. reflexivity. Qed.

Lemma states_VOUCHER_TYPE :
  states conv_handler !! VOUCHER_TYPE =
  Some [MessageHandler text_only get_voucher_type].
Proof. reflexivity. Qed.

Lemma states_VOUCHER_AMOUNT :
  states conv_handler !! VOUCHER_AMOUNT =
  Some [MessageHandler text_only get_voucher_amount].
Proof. reflexivity. Qed.

Lemma states_other s :
  s <> NAME -> s <> VOUCHER_TYPE -> s <> VOUCHER_AMOUNT ->
  states conv_handler !! s = None.
Proof.
  intros H0 H1 H2. unfold conv_handler; cbn [states].
  rewrite !lookup_insert_ne by congruence. apply lookup_empty.
Qed.

Lemma check_idle u :
  conv_check_update conv_handler None u =
  if bool_decide (lower <$> message_command u = Some "start")
  then Some (CommandHandler "start" start) else None.
Proof.
  unfold conv_check_update; cbn. change (lower "start") with "start".
  case_bool_decide; reflexivity.
Qed.

Lemma check_active s u :
  conv_check_update conv_handler (Some s) u =
  match first_match (default [] (states conv_handler !! s)) u with
  | Some h => Some h
  | None =>
      if bool_decide (lower <$> message_command u = Some "cancel")
      then Some (CommandHandler "cancel" cancel) else None
  end.
Proof.
  unfold conv_check_update. cbn [allow_reentry conv_handler fallbacks].
  destruct (first_match _ u); [reflexivity|].
  cbn. change (lower "cancel") with "cancel". case_bool_decide; reflexivity.
Qed.

Lemma text_only_not_command u :
  text_only u = true -> message_command u = None.
Proof.
  unfold text_only, filters.COMMAND. intros H.
  destruct (message_command u); [|reflexivity].
  rewrite andb_false_r in H. discriminate.
Qed.

Lemma command_not_text_only u c :
  message_command u = Some c -> text_only u = false.
Proof.
  unfold text_only, filters.COMMAND. intros ->. apply andb_false_r.
Qed.

(** Free text in one of the three collecting states goes to the callback of
    that state. *)
Lemma check_text s cb u :
  states conv_handler !! s = Some [MessageHandler text_only cb] ->
  text_only u = true ->
  conv_check_update conv_handler (Some s) u = Some (MessageHandler text_only cb).
Proof.
  intros Hs Hu. rewrite check_active, Hs. cbn. rewrite Hu. reflexivity.
Qed.

(** A command in a conversation reaches the fallbacks, whatever the state. *)
Lemma check_command s c u :
  message_command u = Some c ->
  conv_check_update conv_handler (Some s) u =
  if bool_decide (lower c = "cancel")
  then Some (CommandHandler "cancel" cancel) else None.
Proof.
  intros Hc. rewrite check_active.
  assert (first_match (default [] (states conv_handler !! s)) u = None) as ->.
  { pose proof (command_not_text_only u c Hc) as Ht.
    destruct (decide (s = NAME)) as [->|];
      [rewrite states_NAME; cbn; rewrite Ht; reflexivity|].
    destruct (decide (s = VOUCHER_TYPE)) as [->|];
      [rewrite states_VOUCHER_TYPE; cbn; rewrite Ht; reflexivity|].
    destruct (decide (s = VOUCHER_AMOUNT)) as [->|];
      [rewrite states_VOUCHER_AMOUNT; cbn; rewrite Ht; reflexivity|].
    rewrite states_other by assumption. reflexivity. }
  rewrite Hc. cbn [fmap option_fmap option_map].
  repeat case_bool_decide; congruence.
Qed.

(** What the help handler sees of a command. *)
Lemma help_check c u :
  message_command u = Some c ->
  check_update (CommandHandler (R := unit) "help" help_command) u =
  bool_decide (lower c = "help").
Proof.
  intros Hc. cbn. rewrite Hc. change (lower "help") with "help".
  cbn [fmap option_fmap option_map].
  repeat case_bool_decide; congruence.
Qed.

(** The commands are recognised in any letter case. *)
Lemma named_command u n :
  lower <$> message_command u = Some n ->
  exists c, message_command u = Some c /\ lower c = n.
Proof.
  destruct (message_command u) as [c|]; [|discriminate].
  intros [= <-]. eauto.
Qed.

Lemma process_start_idle_any_case u w un :
  lower <$> message_command u = Some "start" ->
  process_update u (mkApp w None un) =
  mkApp (with_outbox (outbox w ++ [mkReply welcome_text None]) w)
        (Some NAME) un.
Proof.
  intros Hc. unfold process_update, handlers, dispatch.
  cbn [conversation]. rewrite check_idle, Hc.
  rewrite bool_decide_eq_true_2 by reflexivity. reflexivity.
Qed.

Lemma process_start_active_any_case u w s un :
  lower <$> message_command u = Some "start" ->
  process_update u (mkApp w (Some s) un) = mkApp w (Some s) un.
Proof.
  intros Hn. destruct (named_command u _ Hn) as (c & Hc & Hl).
  unfold process_update, handlers.
  cbn [dispatch conversation]. rewrite (check_command s c u Hc), Hl.
  rewrite bool_decide_eq_false_2 by discriminate.
  rewrite (help_check c u Hc), Hl.
  rewrite bool_decide_eq_false_2 by discriminate. reflexivity.
Qed.

Lemma process_cancel_any_case u w s un :
  lower <$> message_command u = Some "cancel" ->
  process_update u (mkApp w (Some s) un) =
  mkApp (mkWorld ∅ (sheet w) (clock w)
           (outbox w ++ [mkReply cancel_text (Some ReplyKeyboardRemove)])
           (log w) (append_calls w))
        None un.
Proof.
  intros Hn. destruct (named_command u _ Hn) as (c & Hc & Hl).
  unfold process_update, handlers, dispatch.
  cbn [conversation]. rewrite (check_command s c u Hc), Hl.
  rewrite bool_decide_eq_true_2 by reflexivity. reflexivity.
Qed.

Lemma process_start_idle u w un :
  message_command u = Some "start" ->
  process_update u (mkApp w None un) =
  mkApp (with_outbox (outbox w ++ [mkReply welcome_text None]) w)
        (Some NAME) un.
Proof.
  intros Hc. apply process_start_idle_any_case. now rewrite Hc.
Qed.

Lemma process_start_active u w s un :
  message_command u = Some "start" ->
  process_update u (mkApp w (Some s) un) = mkApp w (Some s) un.
Proof.
  intros Hc. apply process_start_active_any_case. now rewrite Hc.
Qed.

Lemma process_cancel u w s un :
  message_command u = Some "cancel" ->
  process_update u (mkApp w (Some s) un) =
  mkApp (mkWorld ∅ (sheet w) (clock w)
           (outbox w ++ [mkReply cancel_text (Some ReplyKeyboardRemove)])
           (log w) (append_calls w))
        None un.
Proof.
  intros Hc. apply process_cancel_any_case. now rewrite Hc.
Qed.

(** /help is answered in any state and changes neither the state nor the
    scratch data. *)
Lemma process_help_any_case u w st un :
  lower <$> message_command u = Some "help" ->
  process_update u (mkApp w st un) =
  mkApp (with_outbox (outbox w ++ [mkReply help_text None]) w) st un.
Proof.
  intros Hn. destruct (named_command u _ Hn) as (c & Hc & Hl).
  unfold process_update, handlers.
  cbn [dispatch conversation].
  assert (conv_check_update conv_handler st u = None) as ->.
  { destruct st as [s|].
    - rewrite (check_command s c u Hc), Hl.
      now rewrite bool_decide_eq_false_2 by discriminate.
    - rewrite check_idle, Hn.
      now rewrite bool_decide_eq_false_2 by discriminate. }
  rewrite (help_check c u Hc), Hl.
  rewrite bool_decide_eq_true_2 by reflexivity. reflexivity.
Qed.

Lemma process_help u w st un :
  message_command u = Some "help" ->
  process_update u (mkApp w st un) =
  mkApp (with_outbox (outbox w ++ [mkReply help_text None]) w) st un.
Proof.
  intros Hc. apply process_help_any_case. now rewrite Hc.
Qed.

Lemma process_name u w un :
  text_only u = true ->
  process_update u (mkApp w (Some NAME) un) =
  mkApp (snd (get_name u w)) (Some VOUCHER_TYPE) un.
Proof.
  intros Hu. unfold process_update, handlers, dispatch.
  cbn [conversation]. rewrite (check_text _ _ _ states_NAME Hu). reflexivity.
Qed.

Lemma process_voucher_type u w un :
  text_only u = true ->
  process_update u (mkApp w (Some VOUCHER_TYPE) un) =
  mkApp (snd (get_voucher_type u w)) (Some VOUCHER_AMOUNT) un.
Proof.
  intros Hu. unfold process_update, handlers, dispatch.
  cbn [conversation]. rewrite (check_text _ _ _ states_VOUCHER_TYPE Hu).
  reflexivity.
Qed.

Lemma process_voucher_amount u w un :
  text_only u = true ->
  process_update u (mkApp w (Some VOUCHER_AMOUNT) un) =
  conv_handle_update (MessageHandler text_only get_voucher_amount) u
    (mkApp w (Some VOUCHER_AMOUNT) un).
Proof.
  intros Hu. unfold process_update, handlers, dispatch.
  cbn [conversation]. rewrite (check_text _ _ _ states_VOUCHER_AMOUNT Hu).
  reflexivity.
Qed.

Lemma dispatch_help u a :
  dispatch [Plain (CommandHandler "help" help_command)] u a =
  if bool_decide (lower <$> message_command u = Some "help")
  then mkApp (with_outbox (outbox (world a) ++ [mkReply help_text None])
                (world a))
             (conversation a) (unhandled a)
  else a.
Proof.
  cbn. change (lower "help") with "help". case_bool_decide; reflexivity.
Qed.

Lemma help_or_ignored u a :
  step u a (dispatch [Plain (CommandHandler "help" help_command)] u a).
Proof.
  rewrite dispatch_help. case_bool_decide.
  - destruct a; now apply step_help.
  - apply step_ignored.
Qed.

Lemma state_handler s cb u :
  states conv_handler !! s = Some [MessageHandler text_only cb] ->
  first_match (default [] (states conv_handler !! s)) u =
  if text_only u then Some (MessageHandler text_only cb) else None.
Proof. intros ->. reflexivity. Qed.

Lemma process_update_step u a : step u a (process_update u a).
Proof.
  destruct a as [w [s|] un]; unfold process_update, handlers;
    cbn [dispatch conversation].
  - destruct (message_command u) as [c|] eqn:Hc.
    + rewrite (check_command s c u Hc). case_bool_decide as Hcc.
      * apply step_cancel. now rewrite Hc, <- Hcc.
      * apply help_or_ignored.
    + rewrite check_active. rewrite Hc.
      rewrite bool_decide_eq_false_2 by discriminate.
      destruct (decide (s = NAME)) as [->|];
        [rewrite (state_handler _ _ u states_NAME);
         destruct (text_only u) eqn:Ht;
         [now apply step_name | apply help_or_ignored]|].
      destruct (decide (s = VOUCHER_TYPE)) as [->|];
        [rewrite (state_handler _ _ u states_VOUCHER_TYPE);
         destruct (text_only u) eqn:Ht;
         [now apply step_voucher_type | apply help_or_ignored]|].
      destruct (decide (s = VOUCHER_AMOUNT)) as [->|];
        [rewrite (state_handler _ _ u states_VOUCHER_AMOUNT);
         destruct (text_only u) eqn:Ht;
         [now apply step_voucher_amount | apply help_or_ignored]|].
      rewrite states_other by assumption. apply help_or_ignored.
  - rewrite check_idle. case_bool_decide as Hc.
    + now apply step_start.
    + apply help_or_ignored.
Qed.

(** *** The scratch data along the transitions *)

Lemma request_user_data {A} (k : Worksheet -> A * list Row) w :
  user_data (snd (request k w)) = user_data w.
Proof.
  unfold request. destruct (sheet w) as [s|]; [|reflexivity].
  destruct (faults s) as [|[d|] rest]; [| reflexivity |];
    destruct (k s); reflexivity.
Qed.

Lemma append_row_user_data r w :
  user_data (snd (append_row r w)) = user_data w.
Proof.
  unfold append_row, mbind, M_bind, modify.
  match goal with
  | |- context [request ?k ?w0] =>
      pose proof (request_user_data k w0) as H; destruct (request k w0) as [[e|[]] w1]
  end; exact H.
Qed.

Lemma ensureHeader_user_data w :
  user_data (snd (ensureHeader w)) = user_data w.
Proof.
  unfold ensureHeader, mbind, M_bind, row_values.
  match goal with
  | |- context [request ?k ?w0] =>
      pose proof (request_user_data k w0) as H;
        destruct (request k w0) as [[e|[|c r]] w1]
  end; cbn [snd] in *; try exact H.
  rewrite append_row_user_data. exact H.
Qed.

Lemma initialize_sheet_user_data cloud w :
  user_data (snd (initialize_sheet cloud w)) = user_data w.
Proof.
  unfold initialize_sheet, try_except, mbind, M_bind.
  destruct cloud as [e|s]; cbn [setup_google_sheets raise].
  - destruct e; reflexivity.
  - unfold modify at 1.
    match goal with
    | |- context [ensureHeader ?w0] =>
        pose proof (ensureHeader_user_data w0) as H;
          destruct (ensureHeader w0) as [[e|[]] w1]
    end; cbn [snd] in H.
    + destruct e; cbn; exact H.
    + cbn. exact H.
Qed.

Ltac invert_session_ok H :=
  inversion H; subst;
  repeat match goal with
         | E : _ = user_data _ |- _ => rewrite <- E in *; clear E
         end.

Lemma step_session_ok u a a' :
  step u a a' ->
  session_ok (conversation a) (user_data (world a)) ->
  session_ok (conversation a') (user_data (world a')).
Proof.
  intros Hstep Hok.
  destruct Hstep; cbn [conversation world] in *; try assumption.
  - cbn. invert_session_ok Hok. constructor.
  - rewrite get_name_eq. cbn. invert_session_ok Hok. constructor.
  - rewrite get_voucher_type_eq. cbn. invert_session_ok Hok. constructor.
  - unfold conv_handle_update; cbn [callback MessageHandler world unhandled].
    inversion Hok as [| | |n v Hs Hd].
    destruct (PyFloat.PyFloat_FromString (message_text u)) as [x|] eqn:Hx.
    + rewrite (get_voucher_amount_accepts u w x (VStr n) (VStr v) Hx).
      * cbn. destruct (sheet w) as [s|]; [|constructor].
        destruct (faults s) as [|[d|] rest]; constructor.
      * rewrite <- Hd. rewrite lookup_insert_ne by done. apply lookup_insert_eq.
      * rewrite <- Hd. apply lookup_insert_eq.
    + rewrite (get_voucher_amount_rejects u w Hx). cbn. rewrite <- Hd.
      constructor.
  - rewrite cancel_eq. cbn. constructor.
Qed.

Lemma reachable_session_ok a :
  reachable a -> session_ok (conversation a) (user_data (world a)).
Proof.
  induction 1 as [cloud t0|a ev Hr IH].
  - unfold boot; cbn [conversation world].
    rewrite initialize_sheet_user_data. constructor.
  - unfold deliver.
    eapply step_session_ok; [apply process_update_step|].
    destruct a; exact IH.
Qed.

Lemma text_message_text_only s :
  s <> "" -> text_only (text_message s) = true.
Proof.
  intros Hs. unfold text_only, filters.TEXT, filters.COMMAND; cbn.
  rewrite andb_true_r. apply negb_true_iff, String.eqb_neq, Hs.
Qed.

Lemma parsed_text_only u x :
  PyFloat.PyFloat_FromString (message_text u) = Some x ->
  message_command u = None ->
  text_only u = true.
Proof.
  intros Hx Hc. unfold text_only, filters.TEXT, filters.COMMAND.
  rewrite Hc, andb_true_r. apply negb_true_iff, String.eqb_neq.
  intros He. rewrite He in Hx. discriminate.
Qed.

(** An accepted amount in state [VOUCHER_AMOUNT], through the dispatch. *)
Lemma process_amount_accepted u w un x n v :
  message_command u = None ->
  PyFloat.PyFloat_FromString (message_text u) = Some x ->
  user_data w !! "name" = Some n ->
  user_data w !! "voucher_type" = Some v ->
  process_update u (mkApp w (Some VOUCHER_AMOUNT) un) =
  mkApp (snd (get_voucher_amount u w)) None un /\
  fst (get_voucher_amount u w) = inr END.
Proof.
  intros Hc Hx Hn Hv.
  rewrite process_voucher_amount by (eapply parsed_text_only; eassumption).
  unfold conv_handle_update; cbn [callback MessageHandler world unhandled].
  rewrite (get_voucher_amount_accepts u w x n v Hx Hn Hv). split; reflexivity.
Qed.

(** ** The claims *)

(** C1. For the inputs /start, "Alice", "Netflix", "25.5", sent when no
    conversation is going on, with the sheet connected and its next request
    succeeding: the sheet receives exactly one append, of the row
    [timestamp, "Alice", "Netflix", 25.5], which lands below the data; the
    user receives the success confirmation, in which the four values are
    interpolated; the conversation is over and the scratch data is empty. *)
Theorem alice_netflix_scenario (a : App) (s : Worksheet)
    (t1 t2 t3 t4 : datetime) :
  conversation a = None ->
  sheet (world a) = Some s ->
  hd None (faults s) = None ->
  let a' := run [(t1, command "start"); (t2, text_message "Alice");
                 (t3, text_message "Netflix"); (t4, text_message "25.5")] a in
  let row := [VStr (strftime t4); VStr "Alice"; VStr "Netflix";
              VFloat amount_25_5] in
  let confirmation :=
    mkReply (success_text (strftime t4) (VStr "Alice") (VStr "Netflix")
               amount_25_5) None in
  PyFloat.PyFloat_FromString "25.5" = Some amount_25_5 /\
  (exists q, PyFloat.to_Q amount_25_5 = Some q /\ (q == 51 # 2)%Q) /\
  append_calls (world a') = append_calls (world a) ++ [row] /\
  grid <$> sheet (world a') = Some (data_rows (grid s) ++ [row]) /\
  outbox (world a') =
    outbox (world a) ++
    [mkReply welcome_text None;
     mkReply [Lit "Terima kasih, "; Fmt (VStr "Alice"); Lit "!

Pilih atau ketik jenis voucher:"]
       (Some (ReplyKeyboardMarkup voucher_types true));
     mkReply amount_prompt (Some ReplyKeyboardRemove);
     confirmation] /\
  (In (Fmt (VStr (strftime t4))) (msg_text confirmation) /\
   In (Fmt (VStr "Alice")) (msg_text confirmation) /\
   In (Fmt (VStr "Netflix")) (msg_text confirmation) /\
   In (Fmt (VFloat amount_25_5)) (msg_text confirmation)) /\
  conversation a' = None /\
  user_data (world a') = ∅ /\
  log (world a') = log (world a) /\
  unhandled a' = unhandled a.
Proof.
  destruct a as [w st un].
  intros Hst Hs Hf a' row confirmation.
  cbn [conversation world unhandled] in Hst, Hs |- *. subst st.
  assert (Hp : PyFloat.PyFloat_FromString "25.5" = Some amount_25_5)
    by (vm_compute; reflexivity).
  split; [exact Hp|].
  split; [eexists; split; [reflexivity | reflexivity]|].
  subst a'. unfold run; cbn [fold_left]. unfold deliver.
  cbn [fst snd world conversation unhandled].
  rewrite process_start_idle by reflexivity.
  cbn [world conversation unhandled].
  rewrite process_name by reflexivity. rewrite get_name_eq.
  cbn [world conversation unhandled snd].
  rewrite process_voucher_type by reflexivity. rewrite get_voucher_type_eq.
  cbn [world conversation unhandled snd].
  match goal with
  | |- context [process_update ?u (mkApp ?w0 _ _)] =>
      destruct (process_amount_accepted u w0 un amount_25_5
                  (VStr "Alice") (VStr "Netflix")) as [-> _];
        [reflexivity | exact Hp
        | cbn [user_data with_clock];
          rewrite lookup_insert_ne by done; apply lookup_insert_eq
        | cbn [user_data with_clock]; apply lookup_insert_eq
        | rewrite (get_voucher_amount_accepts _ w0 amount_25_5
                     (VStr "Alice") (VStr "Netflix"));
          [ | exact Hp
            | cbn [user_data with_clock];
              rewrite lookup_insert_ne by done; apply lookup_insert_eq
            | cbn [user_data with_clock]; apply lookup_insert_eq ] ]
  end.
  cbn [snd world conversation unhandled sheet with_clock with_outbox clock
       outbox log append_calls user_data].
  rewrite Hs.
  assert (Hin : In (Fmt (VStr (strftime t4))) (msg_text confirmation) /\
                In (Fmt (VStr "Alice")) (msg_text confirmation) /\
                In (Fmt (VStr "Netflix")) (msg_text confirmation) /\
                In (Fmt (VFloat amount_25_5)) (msg_text confirmation)).
  { subst confirmation. unfold success_text. cbn [msg_text In]. tauto. }
  destruct (faults s) as [|[d|] rest]; [ | discriminate Hf | ];
    cbn [append_calls sheet outbox user_data log fmap option_fmap option_map grid];
    rewrite <- !app_assoc; cbn [app]; repeat split; try reflexivity; apply Hin.
Qed.

(** The scenario on a process that has just connected to an empty sheet. *)
Lemma alice_netflix_scenario_witness :
  conversation
    (run [(sample_time, command "start");
          (sample_time, text_message "Alice");
          (sample_time, text_message "Netflix");
          (sample_time, text_message "25.5")] fresh_app) = None.
Proof.
  refine (proj1 (proj2 (proj2 (proj2 (proj2 (proj2 (proj2
    (alice_netflix_scenario fresh_app (mkWorksheet [HEADER] [])
       sample_time sample_time sample_time sample_time _ _ _)))))))).
  - reflexivity.
  - reflexivity.
  - reflexivity.
Defined.

(** C2, counterexample.  After /start and "Alice" the conversation awaits the
    voucher type; a second /start changes nothing there: no welcome prompt,
    the name is kept, the state stays. *)
Lemma start_ignored_after_name :
  reachable after_name /\
  conversation after_name = Some VOUCHER_TYPE /\
  user_data (world after_name) !! "name" = Some (VStr "Alice") /\
  process_update (command "start") after_name = after_name /\
  ~ start_resets after_name.
Proof.
  assert (Hc : conversation after_name = Some VOUCHER_TYPE) by reflexivity.
  assert (Hp : process_update (command "start") after_name = after_name).
  { destruct after_name as [w st un] eqn:E. cbn in Hc. subst st.
    now apply process_start_active. }
  split; [|split; [|split; [|split]]].
  - unfold after_name, run; cbn [fold_left]. do 2 apply reachable_deliver.
    apply reachable_boot.
  - exact Hc.
  - reflexivity.
  - exact Hp.
  - unfold start_resets. rewrite Hp, Hc. intros (_ & _ & H). discriminate H.
Qed.

(** C2, as amended.  /start opens a conversation only when none is going
    on: the welcome prompt goes out and the state becomes [NAME]; the
    callback does not touch the scratch data, which is afterwards what it
    was before.  While a conversation is going on, in whatever state,
    /start is ignored: nothing is sent and nothing changes. *)
Theorem start_opens_only_from_idle (u : Update) (w : World)
    (un : list Exception) :
  message_command u = Some "start" ->
  process_update u (mkApp w None un) =
    mkApp (with_outbox (outbox w ++ [mkReply welcome_text None]) w)
          (Some NAME) un /\
  user_data (world (process_update u (mkApp w None un))) = user_data w /\
  (forall s, process_update u (mkApp w (Some s) un) = mkApp w (Some s) un).
Proof.
  intros Hc. rewrite (process_start_idle u w un Hc).
  repeat split.
  intros s. now apply process_start_active.
Qed.

(** /start on a blank world. *)
Lemma start_opens_only_from_idle_witness :
  process_update (command "start") (mkApp (blank_world sample_time) None []) =
  mkApp (with_outbox [mkReply welcome_text None] (blank_world sample_time))
        (Some NAME) [].
Proof.
  exact (proj1 (start_opens_only_from_idle (command "start")
                  (blank_world sample_time) [] eq_refl)).
Defined.

(** [save_voucher] raises nothing that [except ValueError] would catch. *)
Lemma save_voucher_no_ValueError x w e w' :
  save_voucher x w = (inl e, w') -> is_ValueError e = false.
Proof.
  unfold save_voucher, user_data_get, datetime_now, gets, mbind, M_bind.
  destruct (user_data w !! "name") as [n|]; [|intros [= <- _]; reflexivity].
  destruct (user_data w !! "voucher_type") as [v|];
    [|intros [= <- _]; reflexivity].
  destruct (sheet w) as [s|] eqn:Hs; cbn.
  - unfold try_except, append_row, request, modify, mbind, M_bind. cbn.
    rewrite Hs.
    destruct (faults s) as [|[d|] rest]; cbn; discriminate.
  - discriminate.
Qed.

Lemma get_voucher_amount_stores u w x :
  PyFloat.PyFloat_FromString (message_text u) = Some x ->
  get_voucher_amount u w =
  save_voucher x (with_user_data (<["amount" := VFloat x]> (user_data w)) w).
Proof.
  intros Hx. unfold get_voucher_amount, try_except, float.
  unfold mbind at 1, M_bind at 1. rewrite Hx.
  unfold user_data_set, modify. unfold mret at 1, M_ret at 1.
  unfold mbind at 1, M_bind at 1.
  destruct (save_voucher x _) as [[e|z] w'] eqn:E; [|reflexivity].
  now rewrite (save_voucher_no_ValueError _ _ _ _ E).
Qed.

(** C3. In [get_voucher_amount], a text that [float] refuses gets the
    validation prompt and the return value [VOUCHER_AMOUNT], and nothing else
    changes: the scratch data (so "amount" stays unset and no key is
    overwritten), the sheet and the list of appends are as before; through
    the dispatch the conversation stays in [VOUCHER_AMOUNT].  A text that
    [float] accepts has its value stored under "amount" before the rest of
    the callback runs.  "abc", "12xyz" and the empty text are refused; "50"
    and "25.5" are accepted with the values 50 and 25.5. *)
Theorem amount_parse_gate (u : Update) (w : World) (un : list Exception) :
  match PyFloat.PyFloat_FromString (message_text u) with
  | None =>
      get_voucher_amount u w =
        (inr VOUCHER_AMOUNT,
         with_outbox (outbox w ++ [mkReply invalid_amount_text None]) w) /\
      user_data (snd (get_voucher_amount u w)) = user_data w /\
      sheet (snd (get_voucher_amount u w)) = sheet w /\
      append_calls (snd (get_voucher_amount u w)) = append_calls w /\
      (text_only u = true ->
       process_update u (mkApp w (Some VOUCHER_AMOUNT) un) =
       mkApp (with_outbox (outbox w ++ [mkReply invalid_amount_text None]) w)
             (Some VOUCHER_AMOUNT) un)
  | Some x =>
      get_voucher_amount u w =
        save_voucher x
          (with_user_data (<["amount" := VFloat x]> (user_data w)) w)
  end /\
  PyFloat.PyFloat_FromString "abc" = None /\
  PyFloat.PyFloat_FromString "12xyz" = None /\
  PyFloat.PyFloat_FromString "" = None /\
  (exists x q, PyFloat.PyFloat_FromString "50" = Some x /\
               PyFloat.to_Q x = Some q /\ (q == 50)%Q) /\
  (exists x q, PyFloat.PyFloat_FromString "25.5" = Some x /\
               PyFloat.to_Q x = Some q /\ (q == 51 # 2)%Q).
Proof.
  split.
  - destruct (PyFloat.PyFloat_FromString (message_text u)) as [x|] eqn:Hx.
    + now apply get_voucher_amount_stores.
    + rewrite (get_voucher_amount_rejects u w Hx). repeat split.
      intros Ht. rewrite (process_voucher_amount u w un Ht).
      unfold conv_handle_update; cbn [callback MessageHandler world unhandled].
      rewrite (get_voucher_amount_rejects u w Hx). reflexivity.
  - repeat split; try (vm_compute; reflexivity);
      eexists; eexists; (split; [vm_compute; reflexivity|]);
      split; reflexivity.
Qed.

(** C4. /cancel in any of the three collecting states: the acknowledgment
    goes out, the scratch data is emptied, the conversation is over, and
    the sheet and the list of appends are untouched. *)
Theorem cancel_from_collecting_states (u : Update) (w : World)
    (un : list Exception) (s : Z) :
  message_command u = Some "cancel" ->
  s = NAME \/ s = VOUCHER_TYPE \/ s = VOUCHER_AMOUNT ->
  let a' := process_update u (mkApp w (Some s) un) in
  outbox (world a') =
    outbox w ++ [mkReply cancel_text (Some ReplyKeyboardRemove)] /\
  user_data (world a') = ∅ /\
  conversation a' = None /\
  append_calls (world a') = append_calls w /\
  sheet (world a') = sheet w /\
  log (world a') = log w /\
  unhandled a' = un.
Proof.
  intros Hc _ a'. subst a'. rewrite (process_cancel u w s un Hc).
  repeat split.
Qed.

(** /cancel after /start and a name. *)
Lemma cancel_from_collecting_states_witness :
  conversation (process_update (command "cancel") after_name) = None.
Proof.
  exact (proj1 (proj2 (proj2
    (cancel_from_collecting_states (command "cancel") (world after_name)
       (unhandled after_name) VOUCHER_TYPE eq_refl
       (or_intror (or_introl eq_refl)))))).
Defined.

(** C5. In state [VOUCHER_AMOUNT] with name and voucher type collected, an
    accepted amount ends the conversation also when nothing can be saved.
    With [sheet] unset the user gets the not-configured notice and no append
    is made; with an append that raises, whatever its detail, the user gets
    the fixed failure notice, the detail goes to the log only, and that one
    append is not tried again.  Both notices are literal texts.  In both
    cases the scratch data is empty and no conversation is left. *)
Theorem store_failure_still_ends (u : Update) (w : World)
    (un : list Exception) (x : PyFloat.t) (n v : Value) :
  message_command u = None ->
  PyFloat.PyFloat_FromString (message_text u) = Some x ->
  user_data w !! "name" = Some n ->
  user_data w !! "voucher_type" = Some v ->
  let a' := process_update u (mkApp w (Some VOUCHER_AMOUNT) un) in
  let row := [VStr (strftime (clock w)); n; v; VFloat x] in
  (sheet w = None ->
   a' = mkApp (mkWorld ∅ None (clock w)
                 (outbox w ++ [mkReply not_connected_text None])
                 (log w) (append_calls w))
              None un) /\
  (forall s detail rest,
     sheet w = Some s -> faults s = Some detail :: rest ->
     a' = mkApp (mkWorld ∅ (Some (mkWorksheet (grid s) rest)) (clock w)
                   (outbox w ++ [mkReply save_failed_text None])
                   (log w ++ [LogError [Lit "Error saving to sheet: ";
                                        FmtExc (Fault detail)]])
                   (append_calls w ++ [row]))
                None un) /\
  forallb literal not_connected_text = true /\
  forallb literal save_failed_text = true.
Proof.
  intros Hc Hx Hn Hv a' row. subst a'.
  destruct (process_amount_accepted u w un x n v Hc Hx Hn Hv) as [-> _].
  rewrite (get_voucher_amount_accepts u w x n v Hx Hn Hv). cbn [snd].
  repeat split.
  - intros ->. reflexivity.
  - intros s detail rest -> ->. reflexivity.
Qed.

(** An amount given to a process that could not set the sheet up. *)
Lemma store_failure_still_ends_witness :
  conversation
    (process_update (text_message "25.5") (awaiting_amount offline_app)) = None.
Proof.
  pose proof (store_failure_still_ends (text_message "25.5")
                (world (awaiting_amount offline_app))
                (unhandled (awaiting_amount offline_app))
                amount_25_5 (VStr "Alice") (VStr "Netflix")
                eq_refl eq_refl eq_refl eq_refl) as H.
  cbv zeta in H. destruct H as [H _].
  specialize (H eq_refl).
  change (mkApp (world (awaiting_amount offline_app)) (Some VOUCHER_AMOUNT)
            (unhandled (awaiting_amount offline_app)))
    with (awaiting_amount offline_app) in H.
  rewrite H. reflexivity.
Defined.

Ltac solve_lookup :=
  repeat (rewrite lookup_insert_eq || rewrite lookup_insert_ne by done
          || rewrite lookup_empty);
  first [ solve [intros; eauto] | intros [? [=]] ].

(** *** Conversations side by side *)

Lemma process_edited_conversation u a :
  conversation (process_edited u a) = conversation a.
Proof.
  unfold process_edited.
  destruct (conv_check_update conv_handler (conversation a) u);
    [reflexivity|].
  cbn. case_bool_decide; reflexivity.
Qed.

Lemma process_edited_world u a : world (process_edited u a) = world a.
Proof.
  unfold process_edited.
  destruct (conv_check_update conv_handler (conversation a) u);
    [reflexivity|].
  cbn. case_bool_decide; reflexivity.
Qed.

Lemma commit_conversation s chat user a :
  conversations (commit s chat user a) !! (chat, user) = conversation a.
Proof.
  unfold commit; cbn. destruct (conversation a);
    [apply lookup_insert_eq | apply lookup_delete_eq].
Qed.

Lemma commit_conversation_other s chat user a k :
  k <> (chat, user) ->
  conversations (commit s chat user a) !! k = conversations s !! k.
Proof.
  intros Hk. unfold commit; cbn. destruct (conversation a);
    [now apply lookup_insert_ne | now apply lookup_delete_ne].
Qed.

Lemma commit_user_data s chat user a :
  user_data_of (commit s chat user a) user = user_data (world a).
Proof. unfold user_data_of, commit; cbn. now rewrite lookup_insert_eq. Qed.

Lemma commit_user_data_other s chat user a other :
  other <> user ->
  user_data_of (commit s chat user a) other = user_data_of s other.
Proof.
  intros Hu. unfold user_data_of, commit; cbn.
  now rewrite lookup_insert_ne by congruence.
Qed.

(** The messages of other users, and edited messages, leave a conversation
    and the scratch data of its user as they are; a new message of the user
    in the chat takes one of the transitions. *)
Lemma serve_session_ok s ev chat user :
  in_one_chat chat user (snd ev) = true ->
  session_ok (conversations s !! (chat, user)) (user_data_of s user) ->
  session_ok (conversations (serve s ev) !! (chat, user))
             (user_data_of (serve s ev) user).
Proof.
  destruct ev as [t [c u' upd|c u' upd|]]; unfold serve, in_one_chat;
    cbn [snd fst sender]; intros Hin Hok; [| |exact Hok].
  - destruct (decide (u' = user)) as [->|Hne].
    + rewrite bool_decide_eq_true_2 in Hin by reflexivity.
      cbn in Hin. apply bool_decide_eq_true_1 in Hin. subst c.
      rewrite commit_conversation, commit_user_data.
      unfold deliver; cbn [fst snd].
      eapply step_session_ok; [apply process_update_step|].
      exact Hok.
    + rewrite commit_conversation_other by congruence.
      now rewrite commit_user_data_other by congruence.
  - destruct (decide (u' = user)) as [->|Hne].
    + rewrite bool_decide_eq_true_2 in Hin by reflexivity.
      cbn in Hin. apply bool_decide_eq_true_1 in Hin. subst c.
      rewrite commit_conversation, commit_user_data.
      rewrite process_edited_conversation, process_edited_world.
      exact Hok.
    + rewrite commit_conversation_other by congruence.
      now rewrite commit_user_data_other by congruence.
Qed.

Lemma start_service_session_ok cloud t0 chat user :
  session_ok (conversations (start_service cloud t0) !! (chat, user))
             (user_data_of (start_service cloud t0) user).
Proof.
  unfold start_service, user_data_of; cbn [conversations users].
  rewrite !lookup_empty. constructor.
Qed.

Lemma serve_all_session_ok evs s chat user :
  forallb (fun ev => in_one_chat chat user (snd ev)) evs = true ->
  session_ok (conversations s !! (chat, user)) (user_data_of s user) ->
  session_ok (conversations (serve_all evs s) !! (chat, user))
             (user_data_of (serve_all evs s) user).
Proof.
  revert s. induction evs as [|ev evs IH]; intros s Hall Hok; [exact Hok|].
  cbn in Hall. apply andb_true_iff in Hall as [Hev Hall].
  apply (IH (serve s ev) Hall). now apply serve_session_ok.
Qed.

Lemma session_ok_fields_in_order st d :
  session_ok st d -> fields_in_order st d /\ d !! "amount" = None.
Proof.
  intros Hok. unfold fields_in_order.
  inversion Hok; subst;
    (split; [split; [|split; [|split; [|split]]]|]);
    try solve_lookup; try discriminate; try reflexivity.
Qed.

(** C9, counterexample.  User 7 has come to the amount in chat 1 and then
    filled and sent another form in chat 2, which emptied the scratch data:
    the conversation in chat 1 awaits the amount with neither name nor
    voucher type.  The amount "20" in chat 1 is then stored before the read
    of the name raises KeyError: an amount without name and voucher type,
    with the conversation still awaiting the amount.  A /start in chat 2
    then opens a conversation on that left-over amount. *)
Lemma fields_out_of_order_across_chats :
  let s := serve_all two_chats fresh_service in
  conversations s !! (1, 7) = Some VOUCHER_AMOUNT /\
  user_data_of s 7 = ∅ /\
  last (append_calls (common s)) =
    Some [VStr "2024-05-17 13:45:09"; VStr "Bob"; VStr "Steam";
          VFloat (S754_finite false 5629499534213120 (-49))] /\
  ~ fields_in_order (conversations s !! (1, 7)) (user_data_of s 7) /\
  let s1 := serve s (sample_time, Message 1 7 (text_message "20")) in
  escaped s1 = [KeyError "name"] /\
  conversations s1 !! (1, 7) = Some VOUCHER_AMOUNT /\
  user_data_of s1 7 = {["amount" := VFloat twenty]} /\
  ~ fields_in_order (conversations s1 !! (1, 7)) (user_data_of s1 7) /\
  let s2 := serve s1 (sample_time, Message 2 7 (command "start")) in
  conversations s2 !! (2, 7) = Some NAME /\
  user_data_of s2 7 = {["amount" := VFloat twenty]} /\
  ~ fields_in_order (conversations s2 !! (2, 7)) (user_data_of s2 7).
Proof.
  assert (H0 : conversations (serve_all two_chats fresh_service) !! (1, 7)
               = Some VOUCHER_AMOUNT) by (vm_compute; reflexivity).
  assert (H1 : user_data_of (serve_all two_chats fresh_service) 7 = ∅)
    by (vm_compute; reflexivity).
  cbv zeta. rewrite H0, H1.
  split; [reflexivity|]. split; [reflexivity|].
  split; [vm_compute; reflexivity|].
  split.
  { intros (_ & _ & H & _). destruct (H eq_refl) as [[x Hx] _].
    rewrite lookup_empty in Hx. discriminate. }
  set (s1 := serve _ (sample_time, Message 1 7 (text_message "20"))).
  assert (H2 : conversations s1 !! (1, 7) = Some VOUCHER_AMOUNT)
    by (vm_compute; reflexivity).
  assert (H3 : user_data_of s1 7 = {["amount" := VFloat twenty]})
    by (vm_compute; reflexivity).
  rewrite H2, H3.
  split; [vm_compute; reflexivity|]. split; [reflexivity|].
  split; [reflexivity|].
  split.
  { intros (_ & H & _).
    assert (Ha : is_Some (({["amount" := VFloat twenty]}
                            : gmap string Value) !! "amount"))
      by (rewrite lookup_singleton_eq; eauto).
    destruct (H Ha) as [x Hx].
    rewrite lookup_singleton_ne in Hx by done. discriminate. }
  set (s2 := serve s1 (sample_time, Message 2 7 (command "start"))).
  assert (H4 : conversations s2 !! (2, 7) = Some NAME)
    by (vm_compute; reflexivity).
  assert (H5 : user_data_of s2 7 = {["amount" := VFloat twenty]})
    by (vm_compute; reflexivity).
  rewrite H4, H5.
  split; [reflexivity|]. split; [reflexivity|].
  intros (_ & _ & _ & _ & H). specialize (H eq_refl).
  apply (f_equal (fun d : gmap string Value => d !! "amount")) in H.
  rewrite lookup_singleton_eq, lookup_empty in H. discriminate.
Qed.

(** C9, as amended.  Take a user who writes to the bot in one chat only;
    other users write where they like, and messages may be edited.  Then
    after any sequence of updates the scratch data of that user is empty
    when the user has no conversation or has just opened one, holds the
    name alone while the voucher type is awaited, and holds the name and
    the voucher type, and nothing else, while the amount is awaited: the
    fields are filled in order.  No amount is left in it between two
    updates, as the callback that stores the amount empties the scratch
    data before it returns.  Whenever an update leaves the user without a
    conversation (the form was sent, or /cancel), the scratch data is
    empty. *)
Theorem one_chat_fields_in_order (cloud : Exception + Worksheet)
    (t0 : datetime) (evs : list (datetime * Incoming)) (chat user : Z) :
  forallb (fun ev => in_one_chat chat user (snd ev)) evs = true ->
  let s := serve_all evs (start_service cloud t0) in
  let st := conversations s !! (chat, user) in
  let d := user_data_of s user in
  session_ok st d /\
  fields_in_order st d /\
  d !! "amount" = None /\
  (forall ev, in_one_chat chat user (snd ev) = true ->
     conversations (serve s ev) !! (chat, user) = None ->
     user_data_of (serve s ev) user = ∅).
Proof.
  intros Hall s st d.
  assert (Hok : session_ok st d).
  { apply serve_all_session_ok; [exact Hall|].
    apply start_service_session_ok. }
  split; [exact Hok|].
  destruct (session_ok_fields_in_order _ _ Hok) as [Hf Ha].
  split; [exact Hf|]. split; [exact Ha|].
  intros ev Hev Hc.
  pose proof (serve_session_ok s ev chat user Hev Hok) as Hok'.
  rewrite Hc in Hok'. now inversion Hok'.
Qed.

(** Users 7 and 8, each in a chat of their own: while 7 is asked for the
    amount, the scratch data of 7 holds the name and the voucher type. *)
Lemma one_chat_fields_in_order_witness :
  session_ok (conversations (serve_all two_users fresh_service) !! (1, 7))
             (user_data_of (serve_all two_users fresh_service) 7) /\
  conversations (serve_all two_users fresh_service) !! (1, 7)
    = Some VOUCHER_AMOUNT.
Proof.
  split.
  - exact (proj1 (one_chat_fields_in_order (inr (mkWorksheet [] []))
                    sample_time two_users 1 7 eq_refl)).
  - vm_compute; reflexivity.
Defined.

(** *** The sign of a parsed amount *)

Lemma binary_round_aux_negative sx mx ex lx :
  PyFloat.negative
    (binary_round_aux PyFloat.prec PyFloat.emax sx mx ex lx) = true ->
  sx = true.
Proof.
  unfold binary_round_aux.
  destruct (shr_fexp _ _ mx ex lx) as [mrs' e'].
  destruct (shr_fexp _ _ _ e' loc_Exact) as [mrs'' e''].
  destruct (shr_m mrs''); [| destruct (Z.leb _ _) |];
    destruct sx; cbn; congruence.
Qed.

Lemma decimal_to_double_negative neg m e :
  PyFloat.negative (PyFloat.decimal_to_double neg m e) = true -> neg = true.
Proof.
  unfold PyFloat.decimal_to_double.
  destruct m as [|p|p]; try (destruct neg; cbn; congruence).
  destruct (0 <=? e).
  - unfold binary_round. destruct (shl_align _ _ _) as [mz ez].
    apply binary_round_aux_negative.
  - unfold SFdiv. destruct (SFdiv_core_binary _ _ _ _ _ _) as [[mz ez] lz].
    rewrite xorb_false_r. apply binary_round_aux_negative.
Qed.

Lemma dg_strtod_negative s x r :
  PyFloat.dg_strtod s = Some (x, r) ->
  PyFloat.negative x = true -> fst (PyFloat.parse_sign s) = true.
Proof.
  unfold PyFloat.dg_strtod.
  destruct (PyFloat.parse_sign s) as [neg s1].
  destruct (PyFloat.span_digits s1) as [ip s2].
  match goal with
  | |- context [let '(fp, s3) := ?e in _] => destruct e as [fp s3]
  end.
  destruct (ip ++ fp) as [|c ds]; [discriminate|].
  destruct (PyFloat.parse_exponent s3) as [ex s4].
  intros [= <- _]. cbn [fst]. apply decimal_to_double_negative.
Qed.

Lemma Py_parse_inf_or_nan_negative s x r :
  PyFloat.Py_parse_inf_or_nan s = Some (x, r) ->
  PyFloat.negative x = true -> fst (PyFloat.parse_sign s) = true.
Proof.
  unfold PyFloat.Py_parse_inf_or_nan.
  destruct (PyFloat.parse_sign s) as [neg s1].
  destruct (PyFloat.case_insensitive_match s1 _) as [r1|].
  - destruct (PyFloat.case_insensitive_match r1 _);
      intros [= <- _]; destruct neg; cbn; congruence.
  - destruct (PyFloat.case_insensitive_match s1 _); [|discriminate].
    intros [= <- _]. cbn. discriminate.
Qed.

Lemma float_from_string_inner_negative s x :
  PyFloat.float_from_string_inner s = Some x ->
  PyFloat.negative x = true -> fst (PyFloat.parse_sign s) = true.
Proof.
  unfold PyFloat.float_from_string_inner, PyFloat.PyOS_ascii_strtod.
  destruct (PyFloat.dg_strtod s) as [[y r]|] eqn:Hd.
  - destruct r; [|discriminate]. intros [= <-].
    now apply (dg_strtod_negative s y []).
  - destruct (PyFloat.Py_parse_inf_or_nan s) as [[y r]|] eqn:Hp;
      [|discriminate].
    destruct r; [|discriminate]. intros [= <-].
    now apply (Py_parse_inf_or_nan_negative s y []).
Qed.

Lemma parse_sign_head c s s' :
  fst (PyFloat.parse_sign (c :: s)) = fst (PyFloat.parse_sign (c :: s')).
Proof.
  unfold PyFloat.parse_sign.
  destruct (Ascii.eqb c "-"); [reflexivity|].
  destruct (Ascii.eqb c "+"); reflexivity.
Qed.

Lemma drop_underscores_sign s dup :
  PyFloat.drop_underscores "000"%char s = Some dup ->
  fst (PyFloat.parse_sign dup) = fst (PyFloat.parse_sign s).
Proof.
  destruct s as [|c s']; cbn.
  - intros [= <-]. reflexivity.
  - destruct (PyFloat.is_underscore c); [discriminate|].
    destruct (PyFloat.drop_underscores c s') as [d|]; [|discriminate].
    intros [= <-]. apply parse_sign_head.
Qed.

(** A negative amount comes from a text with a minus sign only. *)
Lemma negative_needs_minus text x :
  PyFloat.PyFloat_FromString text = Some x ->
  PyFloat.negative x = true -> leading_minus text = true.
Proof.
  unfold PyFloat.PyFloat_FromString, leading_minus,
    PyFloat.Py_string_to_number_with_underscores.
  set (s := PyFloat.strip
              (PyFloat.TransformDecimalAndSpaceToASCII
                 (list_ascii_of_string text))).
  destruct (existsb PyFloat.is_underscore s).
  - destruct (PyFloat.drop_underscores _ s) as [dup|] eqn:Hd; [|discriminate].
    intros Hx Hn. rewrite <- (drop_underscores_sign s dup Hd).
    now apply (float_from_string_inner_negative dup x).
  - apply float_from_string_inner_negative.
Qed.

(** C6, counterexample.  "-5" is accepted in state [VOUCHER_AMOUNT]: the
    value is -5, it is below zero, and the row that is appended carries it. *)
Lemma negative_amount_appended :
  let a := awaiting_amount fresh_app in
  let a' := deliver a (sample_time, text_message "-5") in
  let row := [VStr (strftime sample_time); VStr "Alice"; VStr "Netflix";
              VFloat minus_five] in
  reachable a' /\
  PyFloat.PyFloat_FromString "-5" = Some minus_five /\
  PyFloat.negative minus_five = true /\
  (exists q, PyFloat.to_Q minus_five = Some q /\ (q == - (5))%Q) /\
  conversation a = Some VOUCHER_AMOUNT /\
  conversation a' = None /\
  append_calls (world a') = append_calls (world a) ++ [row] /\
  grid <$> sheet (world a') = Some [HEADER; row].
Proof.
  cbv zeta. split; [|split; [|split; [|split; [|split; [|split; [|split]]]]]].
  - unfold awaiting_amount, run; cbn [fold_left].
    do 4 apply reachable_deliver. apply reachable_boot.
  - vm_compute; reflexivity.
  - reflexivity.
  - eexists; split; reflexivity.
  - reflexivity.
  - vm_compute; reflexivity.
  - vm_compute; reflexivity.
  - vm_compute; reflexivity.
Qed.

(** C6, as amended.  An amount that [float] accepts is stored under
    "amount" and, with the sheet connected, passed to [append_row] exactly
    as [float] returned it: nothing checks its sign.  It is below zero only
    when the text starts with a minus sign; such texts are accepted like any
    other number. *)
Theorem amount_sign_unchecked (u : Update) (w : World) (un : list Exception)
    (x : PyFloat.t) (n v : Value) (s : Worksheet) :
  message_command u = None ->
  PyFloat.PyFloat_FromString (message_text u) = Some x ->
  user_data w !! "name" = Some n ->
  user_data w !! "voucher_type" = Some v ->
  sheet w = Some s ->
  let a' := process_update u (mkApp w (Some VOUCHER_AMOUNT) un) in
  get_voucher_amount u w =
    save_voucher x
      (with_user_data (<["amount" := VFloat x]> (user_data w)) w) /\
  append_calls (world a') =
    append_calls w ++ [[VStr (strftime (clock w)); n; v; VFloat x]] /\
  conversation a' = None /\
  (PyFloat.negative x = true -> leading_minus (message_text u) = true).
Proof.
  intros Hc Hx Hn Hv Hs a'. subst a'.
  split; [now apply get_voucher_amount_stores|].
  destruct (process_amount_accepted u w un x n v Hc Hx Hn Hv) as [-> _].
  rewrite (get_voucher_amount_accepts u w x n v Hx Hn Hv). cbn [snd].
  rewrite Hs.
  split; [|split].
  - destruct (faults s) as [|[d|] rest]; reflexivity.
  - reflexivity.
  - now apply negative_needs_minus.
Qed.

(** "-5" in a conversation that awaits the amount. *)
Lemma amount_sign_unchecked_witness :
  leading_minus "-5" = true.
Proof.
  refine (proj2 (proj2 (proj2
    (amount_sign_unchecked (text_message "-5")
       (world (awaiting_amount fresh_app)) [] minus_five
       (VStr "Alice") (VStr "Netflix") (mkWorksheet [HEADER] [])
       eq_refl _ eq_refl eq_refl eq_refl))) eq_refl).
  vm_compute; reflexivity.
Defined.

(** *** Header initialisation *)

(** [ensureHeader] on a connected sheet whose requests succeed. *)
Lemma ensureHeader_connected w g :
  sheet w = Some (mkWorksheet g []) ->
  snd (ensureHeader w) =
  match trim_row (hd [] g) with
  | [] =>
      with_sheet (Some (mkWorksheet (data_rows g ++ [HEADER]) []))
        (with_append_calls (append_calls w ++ [HEADER]) w)
  | _ :: _ => with_sheet (Some (mkWorksheet g [])) w
  end.
Proof.
  intros Hs. unfold ensureHeader, row_values, request, mbind, M_bind.
  rewrite Hs. cbn [faults grid tl pred].
  replace (nth 0 g []) with (hd [] g) by (destruct g; reflexivity).
  destruct (trim_row (hd [] g)) as [|c r]; [|reflexivity].
  unfold append_row, request, modify, mbind, M_bind. reflexivity.
Qed.

(** Where the first row holds something, or the sheet holds nothing at all,
    a second [ensureHeader] leaves the sheet as the first did. *)
Lemma ensureHeader_twice_same (g : list Row) :
  trim_row (hd [] g) <> [] \/ data_rows g = [] ->
  let once := snd (ensureHeader (connected (mkWorksheet g []))) in
  sheet (snd (ensureHeader once)) = sheet once.
Proof.
  intros Hg once. subst once.
  rewrite (ensureHeader_connected (connected (mkWorksheet g [])) g eq_refl).
  destruct (trim_row (hd [] g)) as [|c r] eqn:Hg1.
  - destruct Hg as [Hg|Hg]; [congruence|]. rewrite Hg.
    erewrite (ensureHeader_connected _ [HEADER]) by reflexivity. reflexivity.
  - erewrite (ensureHeader_connected _ g) by reflexivity.
    rewrite Hg1. reflexivity.
Qed.

(** C7, the code at the failing input.  On a sheet whose first row is blank
    while data stands below it, the first row is read as empty and the
    header is appended below the data; the first row is still empty then,
    so a second call appends a second header row. *)
Theorem ensureHeader_twice_under_blank_row :
  let once := snd (ensureHeader (connected blank_first_row)) in
  let twice := snd (ensureHeader once) in
  fst (row_values 1 (connected blank_first_row)) = inr [] /\
  grid <$> sheet once = Some [[]; [VStr "earlier data"]; HEADER] /\
  fst (row_values 1 once) = inr [] /\
  grid <$> sheet twice = Some [[]; [VStr "earlier data"]; HEADER; HEADER] /\
  append_calls twice = [HEADER; HEADER].
Proof. cbv zeta. repeat split. Qed.

(** *** The rows of the sheet *)

Lemma nat_of_digit_char d :
  Z.of_nat (nat_of_ascii (digit_char d)) = 48 + d mod 10.
Proof.
  unfold digit_char.
  pose proof (Z.mod_pos_bound d 10 ltac:(lia)) as Hd.
  rewrite nat_ascii_embedding by lia. lia.
Qed.

Lemma digit_char_is_digit d : PyFloat.Py_ISDIGIT (digit_char d) = true.
Proof.
  unfold PyFloat.Py_ISDIGIT. rewrite nat_of_digit_char.
  pose proof (Z.mod_pos_bound d 10 ltac:(lia)) as Hd.
  apply andb_true_iff; split; apply Z.leb_le; lia.
Qed.

Lemma digit_value_digit_char d : PyFloat.digit_value (digit_char d) = d mod 10.
Proof. unfold PyFloat.digit_value. rewrite nat_of_digit_char. lia. Qed.

Lemma strftime_format dt : timestamp_format (strftime dt) = true.
Proof.
  unfold timestamp_format, strftime.
  rewrite list_ascii_of_string_of_list_ascii.
  cbn [zero_pad4 zero_pad2 app forallb].
  rewrite !digit_char_is_digit. reflexivity.
Qed.

Lemma two_digits n :
  0 <= n < 100 -> 10 * ((n / 10) mod 10) + n mod 10 = n.
Proof. intros Hn. Z.div_mod_to_equations. lia. Qed.

Lemma four_digits n :
  0 <= n < 10000 ->
  10 * (10 * (10 * ((n / 1000) mod 10) + (n / 100) mod 10) + (n / 10) mod 10)
  + n mod 10 = n.
Proof. intros Hn. Z.div_mod_to_equations. lia. Qed.

Lemma strftime_reads_back dt :
  clock_reading dt -> read_timestamp (strftime dt) = Some dt.
Proof.
  intros (Hy & Hm & Hd & Hh & Hn & Hs).
  unfold read_timestamp, strftime.
  rewrite list_ascii_of_string_of_list_ascii.
  cbn [zero_pad4 zero_pad2 app]. unfold PyFloat.Z_of_digits. cbn [fold_left].
  rewrite !digit_value_digit_char. rewrite !Z.mul_0_r, !Z.add_0_l.
  rewrite four_digits by lia. rewrite !two_digits by lia.
  destruct dt; reflexivity.
Qed.




(** *** Texts that are not plain numbers *)

Lemma parsed_accepted_as text x :
  PyFloat.PyFloat_FromString text = Some x -> accepted_as text x.
Proof.
  intros Hx. split; [exact Hx|]. intros w un n v Hn Hv a'. subst a'.
  destruct (process_amount_accepted (text_message text) w un x n v
              eq_refl Hx Hn Hv) as [-> _].
  rewrite (get_voucher_amount_accepts (text_message text) w x n v Hx Hn Hv).
  cbn [snd]. split; [reflexivity|]. split.
  - intros s ->. destruct (faults s) as [|[d|] rest]; reflexivity.
  - destruct (sheet w) as [s|].
    + destruct (faults s) as [|[d|] rest]; eexists;
        (split; [reflexivity|]); cbn [msg_text]; discriminate.
    + eexists; split; [reflexivity|]. cbn [msg_text]. discriminate.
Qed.

(** C10. [float] takes more than plain numbers: "inf", "nan", "1e3" and
    "  50  " are not digit strings with an optional decimal part, yet
    each is accepted in state [VOUCHER_AMOUNT], as infinity, NaN, 1000 and
    50; the conversation ends, the append is attempted with that value when
    the sheet is connected, and the user is not asked again.  The first two
    values are not finite. *)
Theorem float_accepts_more_than_plain_numbers :
  (plain_number "inf" = false /\ accepted_as "inf" (S754_infinity false)) /\
  (plain_number "nan" = false /\ accepted_as "nan" S754_nan) /\
  (plain_number "1e3" = false /\
   exists x q, accepted_as "1e3" x /\ PyFloat.to_Q x = Some q /\
               (q == 1000)%Q) /\
  (plain_number "  50  " = false /\
   exists x q, accepted_as "  50  " x /\ PyFloat.to_Q x = Some q /\
               (q == 50)%Q) /\
  PyFloat.isfinite (S754_infinity false) = false /\
  PyFloat.isfinite S754_nan = false /\
  plain_number "50" = true /\ plain_number "25.5" = true.
Proof.
  split; [split; [reflexivity | apply parsed_accepted_as; reflexivity]|].
  split; [split; [reflexivity | apply parsed_accepted_as; reflexivity]|].
  split; [split; [reflexivity|];
          eexists; eexists;
          split; [apply parsed_accepted_as; vm_compute; reflexivity
                 | split; reflexivity]|].
  split; [split; [reflexivity|];
          eexists; eexists;
          split; [apply parsed_accepted_as; vm_compute; reflexivity
                 | split; reflexivity]|].
  repeat split.
Qed.

(** ** Further properties of the code *)

(** *** A scratch key that is missing *)

Lemma get_voucher_amount_missing_name u w x :
  PyFloat.PyFloat_FromString (message_text u) = Some x ->
  user_data w !! "name" = None ->
  get_voucher_amount u w =
  (inl (KeyError "name"),
   with_user_data (<["amount" := VFloat x]> (user_data w)) w).
Proof.
  intros Hx Hn. rewrite (get_voucher_amount_stores u w x Hx).
  unfold save_voucher, user_data_get, datetime_now, gets, mbind, M_bind.
  cbn [user_data with_user_data].
  rewrite lookup_insert_ne by done. rewrite Hn. reflexivity.
Qed.

Lemma get_voucher_amount_missing_voucher_type u w x n :
  PyFloat.PyFloat_FromString (message_text u) = Some x ->
  user_data w !! "name" = Some n ->
  user_data w !! "voucher_type" = None ->
  get_voucher_amount u w =
  (inl (KeyError "voucher_type"),
   with_user_data (<["amount" := VFloat x]> (user_data w)) w).
Proof.
  intros Hx Hn Hv. rewrite (get_voucher_amount_stores u w x Hx).
  unfold save_voucher, user_data_get, datetime_now, gets, mbind, M_bind.
  cbn [user_data with_user_data].
  rewrite lookup_insert_ne by done. rewrite Hn.
  cbn [user_data with_user_data].
  rewrite lookup_insert_ne by done. rewrite Hv. reflexivity.
Qed.

(** X1. [get_voucher_amount] reads [user_data['name']] and
    [user_data['voucher_type']] after it has stored the amount.  If one of
    them is missing, the [KeyError] is not caught by [except ValueError]: it
    leaves the callback, the amount stays in the scratch data, nothing is
    sent or appended, and the conversation stays in [VOUCHER_AMOUNT]. *)
Theorem missing_key_escapes (u : Update) (w : World) (un : list Exception)
    (x : PyFloat.t) :
  message_command u = None ->
  PyFloat.PyFloat_FromString (message_text u) = Some x ->
  user_data w !! "name" = None \/ user_data w !! "voucher_type" = None ->
  let a' := process_update u (mkApp w (Some VOUCHER_AMOUNT) un) in
  let key := match user_data w !! "name" with
             | None => "name"
             | Some _ => "voucher_type"
             end in
  unhandled a' = un ++ [KeyError key] /\
  conversation a' = Some VOUCHER_AMOUNT /\
  world a' = with_user_data (<["amount" := VFloat x]> (user_data w)) w.
Proof.
  intros Hc Hx Hk a' key. subst a' key.
  rewrite process_voucher_amount by (eapply parsed_text_only; eassumption).
  unfold conv_handle_update; cbn [callback MessageHandler world unhandled].
  destruct (user_data w !! "name") as [n|] eqn:Hn.
  - destruct Hk as [Hk|Hk]; [discriminate|].
    rewrite (get_voucher_amount_missing_voucher_type u w x n Hx Hn Hk).
    repeat split.
  - rewrite (get_voucher_amount_missing_name u w x Hx Hn). repeat split.
Qed.

(** An amount sent to a conversation that holds no name. *)
Lemma missing_key_escapes_witness :
  unhandled (process_update (text_message "50")
               (mkApp (blank_world sample_time) (Some VOUCHER_AMOUNT) [])) =
  [KeyError "name"].
Proof.
  refine (proj1 (missing_key_escapes (text_message "50")
                   (blank_world sample_time) []
                   (S754_finite false 7036874417766400 (-47))
                   eq_refl _ (or_introl eq_refl))).
  vm_compute; reflexivity.
Defined.

Lemma step_unhandled u a a' :
  step u a a' ->
  session_ok (conversation a) (user_data (world a)) ->
  unhandled a' = unhandled a.
Proof.
  intros Hstep Hok.
  destruct Hstep; cbn [conversation world unhandled] in *; try reflexivity.
  unfold conv_handle_update; cbn [callback MessageHandler world unhandled].
  inversion Hok as [| | |n v Hs Hd].
  assert (Hn : user_data w !! "name" = Some (VStr n))
    by (rewrite <- Hd; rewrite lookup_insert_ne by done;
        apply lookup_insert_eq).
  assert (Hv : user_data w !! "voucher_type" = Some (VStr v))
    by (rewrite <- Hd; apply lookup_insert_eq).
  destruct (PyFloat.PyFloat_FromString (message_text u)) as [x|] eqn:Hx.
  - rewrite (get_voucher_amount_accepts u w x _ _ Hx Hn Hv). reflexivity.
  - rewrite (get_voucher_amount_rejects u w Hx). reflexivity.
Qed.

Lemma new_message_in_one_chat home i user :
  new_message_at home i = true -> in_one_chat (home user) user i = true.
Proof.
  destruct i as [c u' upd| |]; try discriminate.
  unfold new_message_at, in_one_chat; cbn [sender]. intros Hc.
  apply bool_decide_eq_true_1 in Hc. subst c.
  destruct (decide (u' = user)) as [->|Hne].
  - rewrite (bool_decide_eq_true_2 (home user = home user)) by reflexivity.
    apply orb_true_r.
  - now rewrite (bool_decide_eq_false_2 (u' = user)) by assumption.
Qed.

Lemma serve_escaped home s ev :
  new_message_at home (snd ev) = true ->
  (forall user,
     session_ok (conversations s !! (home user, user)) (user_data_of s user)) ->
  escaped (serve s ev) = escaped s.
Proof.
  destruct ev as [t [c u upd| |]]; try discriminate.
  unfold new_message_at, serve; cbn [fst snd]. intros Hc Hok.
  apply bool_decide_eq_true_1 in Hc. subst c.
  unfold commit; cbn [escaped]. unfold deliver; cbn [fst snd].
  rewrite (step_unhandled upd _ _ (process_update_step _ _));
    [reflexivity|]. apply Hok.
Qed.

Lemma serve_all_escaped home evs s :
  forallb (fun ev => new_message_at home (snd ev)) evs = true ->
  (forall user,
     session_ok (conversations s !! (home user, user)) (user_data_of s user)) ->
  escaped (serve_all evs s) = escaped s.
Proof.
  revert s. induction evs as [|ev evs IH]; intros s Hall Hok; [reflexivity|].
  cbn in Hall. apply andb_true_iff in Hall as [Hev Hall].
  cbn [serve_all fold_left]. fold (serve_all evs (serve s ev)).
  rewrite (IH (serve s ev) Hall).
  - now apply (serve_escaped home).
  - intros user. apply serve_session_ok; [|apply Hok].
    now apply new_message_in_one_chat.
Qed.



(** *** The sheet under any update *)

Lemma appended_row_shape t n v x :
  length [VStr (strftime t); n; v; VFloat x] = 4%nat /\
  blank_row [VStr (strftime t); n; v; VFloat x] = false.
Proof. split; reflexivity. Qed.

Lemma get_voucher_amount_store u w :
  store_step w (snd (get_voucher_amount u w)).
Proof.
  destruct (PyFloat.PyFloat_FromString (message_text u)) as [x|] eqn:Hx;
    [|rewrite (get_voucher_amount_rejects u w Hx); now apply store_same].
  destruct (user_data w !! "name") as [n|] eqn:Hn;
    [|rewrite (get_voucher_amount_missing_name u w x Hx Hn);
      now apply store_same].
  destruct (user_data w !! "voucher_type") as [v|] eqn:Hv;
    [|rewrite (get_voucher_amount_missing_voucher_type u w x n Hx Hn Hv);
      now apply store_same].
  rewrite (get_voucher_amount_accepts u w x n v Hx Hn Hv). cbn [snd].
  destruct (sheet w) as [s|] eqn:Hs; [|now apply store_same].
  destruct (appended_row_shape (clock w) n v x) as [Hl Hb].
  destruct (faults s) as [|[d|] rest] eqn:Hf.
  - eapply store_append; try eassumption; try reflexivity.
    + now rewrite Hf.
    + cbn [sheet]. now rewrite Hf.
  - eapply store_fault; try eassumption; reflexivity.
  - eapply store_append; try eassumption; try reflexivity.
    + now rewrite Hf.
    + cbn [sheet]. now rewrite Hf.
Qed.

Lemma step_store u a a' : step u a a' -> store_step (world a) (world a').
Proof.
  intros Hstep. destruct Hstep; cbn [world]; try now apply store_same.
  unfold conv_handle_update; cbn [callback MessageHandler world unhandled].
  pose proof (get_voucher_amount_store u w) as Hst.
  destruct (get_voucher_amount u w) as [[e|z] w']; exact Hst.
Qed.

Lemma deliver_store a ev : store_step (world a) (world (deliver a ev)).
Proof.
  unfold deliver.
  pose proof (step_store _ _ _ (process_update_step (snd ev)
    (mkApp (with_clock (fst ev) (world a)) (conversation a) (unhandled a))))
    as H.
  cbn [world] in H.
  destruct H as [H1 H2|s d rest row H1 H2 H3 H4|s row H1 H2 H3 H4 H5 H6].
  - now apply store_same.
  - now apply (store_fault _ _ s d rest row).
  - now apply (store_append _ _ s row).
Qed.

Lemma data_rows_app_nonblank g r :
  blank_row r = false -> data_rows (g ++ [r]) = g ++ [r].
Proof.
  intros Hr. unfold data_rows. rewrite rev_unit. cbn [drop_while].
  rewrite Hr. cbn [rev]. now rewrite rev_involutive.
Qed.

(** X3. The bot only ever appends to the sheet.  Over any sequence of
    updates, with the sheet connected, the rows of data that were in the
    sheet stay in place in their order, and what is added below them are
    rows of four cells, at most one per update. *)
Theorem sheet_is_append_only (evs : list (datetime * Update)) (a : App)
    (s : Worksheet) :
  sheet (world a) = Some s ->
  exists s' rows,
    sheet (world (run evs a)) = Some s' /\
    data_rows (grid s') = data_rows (grid s) ++ rows /\
    Forall (fun r => length r = 4%nat) rows /\
    (length rows <= length evs)%nat.
Proof.
  revert a s. induction evs as [|ev evs IH]; intros a s Hs.
  - exists s, []. cbn. rewrite app_nil_r.
    split; [exact Hs|]. split; [reflexivity|]. split; [constructor | lia].
  - cbn [run fold_left].
    destruct (deliver_store a ev)
      as [H1 H2|s0 d rest row H1 H2 H3 H4|s0 row H1 H2 H3 H4 H5 H6].
    + rewrite Hs in H1. destruct (IH _ _ H1) as (s' & rows & E1 & E2 & E3 & E4).
      exists s', rows. repeat split; try assumption. cbn [length]. lia.
    + rewrite Hs in H1. injection H1 as <-.
      destruct (IH _ _ H3) as (s' & rows & E1 & E2 & E3 & E4).
      exists s', rows. repeat split; try assumption. cbn [length]. lia.
    + rewrite Hs in H1. injection H1 as <-.
      destruct (IH _ _ H5) as (s' & rows & E1 & E2 & E3 & E4).
      cbn [grid] in E2. rewrite (data_rows_app_nonblank _ _ H4) in E2.
      exists s', (row :: rows). split; [exact E1|]. split.
      * rewrite E2, <- app_assoc. reflexivity.
      * split; [now constructor | cbn [length]; lia].
Qed.

(** Two conversations on a sheet that held one row of data. *)
Lemma sheet_is_append_only_witness :
  exists s' rows,
    sheet (world (run (texts sample_time ["-5"; "/x"; "Bob"])
                    (awaiting_amount
                       (boot (inr (mkWorksheet [[VStr "kept"]] []))
                             sample_time)))) = Some s' /\
    data_rows (grid s') = data_rows [[VStr "kept"]] ++ rows /\
    Forall (fun r => length r = 4%nat) rows /\
    (length rows <= 3)%nat.
Proof.
  exact (sheet_is_append_only (texts sample_time ["-5"; "/x"; "Bob"])
           (awaiting_amount
              (boot (inr (mkWorksheet [[VStr "kept"]] [])) sample_time))
           (mkWorksheet [[VStr "kept"]] []) eq_refl).
Defined.

(** X4. Without a sheet the bot stays without one.  If [sheet] is unset,
    as after a start-up that failed, no sequence of updates sets it or
    calls [append_row]; and a sheet that is connected stays connected. *)
Theorem sheet_connection_is_fixed (evs : list (datetime * Update)) (a : App) :
  (sheet (world a) = None ->
   sheet (world (run evs a)) = None /\
   append_calls (world (run evs a)) = append_calls (world a)) /\
  (is_Some (sheet (world a)) -> is_Some (sheet (world (run evs a)))).
Proof.
  revert a. induction evs as [|ev evs IH]; intros a.
  - cbn. split; [intros Hn; split; [exact Hn | reflexivity] | trivial].
  - cbn [run fold_left]. fold (run evs (deliver a ev)).
    destruct (IH (deliver a ev)) as [IH1 IH2].
    destruct (deliver_store a ev)
      as [H1 H2|s0 d rest row H1 H2 H3 H4|s0 row H1 H2 H3 H4 H5 H6].
    + split.
      * intros Hn. rewrite Hn in H1. destruct (IH1 H1) as [E1 E2].
        split; [exact E1 | now rewrite E2].
      * intros Hsome. apply IH2. now rewrite H1.
    + split; [intros Hn; congruence|]. intros _. apply IH2. rewrite H3. eauto.
    + split; [intros Hn; congruence|]. intros _. apply IH2. rewrite H5. eauto.
Qed.

(** *** What an update may send and append *)

Lemma get_voucher_amount_traffic u w :
  let r := get_voucher_amount u w in
  (outbox (snd r) = outbox w \/ exists m, outbox (snd r) = outbox w ++ [m]) /\
  (append_calls (snd r) = append_calls w \/
   fst r = inr END /\ exists row, append_calls (snd r) = append_calls w ++ [row]).
Proof.
  cbv zeta.
  destruct (PyFloat.PyFloat_FromString (message_text u)) as [x|] eqn:Hx;
    [|rewrite (get_voucher_amount_rejects u w Hx); cbn; eauto].
  destruct (user_data w !! "name") as [n|] eqn:Hn;
    [|rewrite (get_voucher_amount_missing_name u w x Hx Hn); cbn; eauto].
  destruct (user_data w !! "voucher_type") as [v|] eqn:Hv;
    [|rewrite (get_voucher_amount_missing_voucher_type u w x n Hx Hn Hv);
      cbn; eauto].
  rewrite (get_voucher_amount_accepts u w x n v Hx Hn Hv). cbn [fst snd].
  destruct (sheet w) as [s|]; [|cbn; eauto].
  destruct (faults s) as [|[d|] rest]; cbn;
    (split; [right; eexists; reflexivity
            | right; split; [reflexivity | eexists; reflexivity]]).
Qed.

Lemma step_traffic u a a' :
  step u a a' ->
  (outbox (world a') = outbox (world a) \/
   exists m, outbox (world a') = outbox (world a) ++ [m]) /\
  (append_calls (world a') = append_calls (world a) \/
   conversation a = Some VOUCHER_AMOUNT /\
   conversation a' = None /\
   exists row, append_calls (world a') = append_calls (world a) ++ [row]).
Proof.
  intros Hstep.
  destruct Hstep; cbn [world conversation];
    try rewrite get_name_eq; try rewrite get_voucher_type_eq;
    try rewrite cancel_eq; cbn [snd outbox append_calls with_outbox];
    eauto.
  unfold conv_handle_update; cbn [callback MessageHandler world unhandled].
  destruct (get_voucher_amount_traffic u w) as [Ho Ha].
  destruct (get_voucher_amount u w) as [[e|z] w'] eqn:E;
    cbn [fst snd world conversation] in *.
  - split; [exact Ho|]. destruct Ha as [Ha|[Ha _]]; [now left | discriminate].
  - split; [exact Ho|]. destruct Ha as [Ha|[Ha Hrow]]; [now left|].
    right. injection Ha as ->. split; [reflexivity|]. split; [reflexivity|].
    exact Hrow.
Qed.

(** X5. One update makes the bot send at most one message and call
    [append_row] at most once, and what was sent or appended before stays.
    An append is called only by the update that takes the conversation from
    [VOUCHER_AMOUNT] to its end. *)
Theorem one_reply_one_append_per_update (a : App) (ev : datetime * Update) :
  (outbox (world (deliver a ev)) = outbox (world a) \/
   exists m, outbox (world (deliver a ev)) = outbox (world a) ++ [m]) /\
  (append_calls (world (deliver a ev)) = append_calls (world a) \/
   conversation a = Some VOUCHER_AMOUNT /\
   conversation (deliver a ev) = None /\
   exists row,
     append_calls (world (deliver a ev)) = append_calls (world a) ++ [row]).
Proof.
  unfold deliver.
  exact (step_traffic (snd ev) _ _
           (process_update_step (snd ev)
              (mkApp (with_clock (fst ev) (world a)) (conversation a)
                 (unhandled a)))).
Qed.

(** *** Updates that go unanswered *)

Lemma no_state_handler s u :
  text_only u = false ->
  first_match (default [] (states conv_handler !! s)) u = None.
Proof.
  intros Ht.
  destruct (decide (s = NAME)) as [->|];
    [rewrite (state_handler _ _ u states_NAME); now rewrite Ht|].
  destruct (decide (s = VOUCHER_TYPE)) as [->|];
    [rewrite (state_handler _ _ u states_VOUCHER_TYPE); now rewrite Ht|].
  destruct (decide (s = VOUCHER_AMOUNT)) as [->|];
    [rewrite (state_handler _ _ u states_VOUCHER_AMOUNT); now rewrite Ht|].
  now rewrite states_other by assumption.
Qed.

Lemma process_other_command u c a :
  message_command u = Some c ->
  lower c <> "help" ->
  (lower c = "start" -> conversation a <> None) ->
  (lower c = "cancel" -> conversation a = None) ->
  process_update u a = a.
Proof.
  intros Hc Hh Hs Hk. destruct a as [w [s|] un]; cbn [conversation] in *;
    unfold process_update, handlers; cbn [dispatch conversation].
  - rewrite (check_command s c u Hc).
    rewrite bool_decide_eq_false_2
      by (intros Hl; specialize (Hk Hl); discriminate).
    rewrite (help_check c u Hc).
    now rewrite bool_decide_eq_false_2 by assumption.
  - rewrite check_idle, Hc. cbn [fmap option_fmap option_map].
    rewrite bool_decide_eq_false_2
      by (intros [= Hl]; now apply Hs).
    rewrite (help_check c u Hc).
    now rewrite bool_decide_eq_false_2 by assumption.
Qed.

Lemma process_plain_ignored u a :
  message_command u = None ->
  conversation a = None \/ message_text u = "" ->
  process_update u a = a.
Proof.
  intros Hc Hi. destruct a as [w [s|] un]; cbn [conversation] in *;
    unfold process_update, handlers; cbn [dispatch conversation].
  - destruct Hi as [Hi|Hi]; [discriminate|].
    rewrite check_active, no_state_handler, Hc.
    + rewrite bool_decide_eq_false_2 by discriminate.
      cbn. rewrite Hc.
      now rewrite bool_decide_eq_false_2 by discriminate.
    + unfold text_only, filters.TEXT. now rewrite Hi.
  - rewrite check_idle, Hc. rewrite bool_decide_eq_false_2 by discriminate.
    cbn. rewrite Hc.
    now rewrite bool_decide_eq_false_2 by discriminate.
Qed.

(** X6. Updates that no handler takes leave everything as it is and get no
    answer: a command that is, in any letter case, none of /start, /cancel
    and /help, in any state; /cancel, in any letter case, when no
    conversation is going on; a text when no conversation is going on; and
    a message without text in any state. *)
Theorem unhandled_updates_change_nothing (u : Update) (a : App) :
  match message_command u with
  | Some c =>
      lower c <> "start" /\ lower c <> "cancel" /\ lower c <> "help" \/
      lower c = "cancel" /\ conversation a = None
  | None => conversation a = None \/ message_text u = ""
  end ->
  process_update u a = a.
Proof.
  destruct (message_command u) as [c|] eqn:Hc.
  - intros [(Hs & Hk & Hh)|[Hk Hi]].
    + now apply (process_other_command u c).
    + apply (process_other_command u c); try done.
      all: rewrite Hk; discriminate.
  - now apply process_plain_ignored.
Qed.

(** A text sent before any /start. *)
Lemma unhandled_updates_change_nothing_witness :
  process_update (text_message "Alice") fresh_app = fresh_app.
Proof.
  exact (unhandled_updates_change_nothing (text_message "Alice") fresh_app
           (or_introl eq_refl)).
Defined.

(** X7. /help is answered in every state, with the help text, and touches
    nothing else: the state of the conversation, the scratch data, the sheet
    and the appends are as before, so a conversation goes on after it. *)
Theorem help_leaves_the_conversation (a : App) (now : datetime) (u : Update) :
  message_command u = Some "help" ->
  let a' := deliver a (now, u) in
  outbox (world a') = outbox (world a) ++ [mkReply help_text None] /\
  conversation a' = conversation a /\
  user_data (world a') = user_data (world a) /\
  sheet (world a') = sheet (world a) /\
  append_calls (world a') = append_calls (world a) /\
  log (world a') = log (world a) /\
  unhandled a' = unhandled a.
Proof.
  intros Hc a'. subst a'. unfold deliver. cbn [fst snd].
  rewrite (process_help u _ _ _ Hc). repeat split.
Qed.

(** /help while the amount is awaited. *)
Lemma help_leaves_the_conversation_witness :
  conversation (deliver (awaiting_amount fresh_app)
                  (sample_time, command "help")) = Some VOUCHER_AMOUNT.
Proof.
  exact (proj1 (proj2 (help_leaves_the_conversation
                         (awaiting_amount fresh_app) sample_time
                         (command "help") eq_refl))).
Defined.

(** *** Whole conversations *)

Lemma run_collect a t1 t2 t3 name vt :
  conversation a = None ->
  name <> "" -> vt <> "" ->
  run [(t1, command "start"); (t2, text_message name);
       (t3, text_message vt)] a =
  mkApp
    (mkWorld
       (<["voucher_type" := VStr vt]>
          (<["name" := VStr name]> (user_data (world a))))
       (sheet (world a)) t3
       (outbox (world a) ++
        [mkReply welcome_text None;
         mkReply [Lit "Terima kasih, "; Fmt (VStr name); Lit "!

Pilih atau ketik jenis voucher:"]
           (Some (ReplyKeyboardMarkup voucher_types true));
         mkReply amount_prompt (Some ReplyKeyboardRemove)])
       (log (world a)) (append_calls (world a)))
    (Some VOUCHER_AMOUNT) (unhandled a).
Proof.
  destruct a as [w st un]. cbn [conversation world unhandled].
  intros -> Hname Hvt.
  unfold run; cbn [fold_left]. unfold deliver.
  cbn [fst snd world conversation unhandled].
  rewrite process_start_idle by reflexivity.
  cbn [world conversation unhandled].
  rewrite process_name by now apply text_message_text_only.
  rewrite get_name_eq. cbn [world conversation unhandled snd].
  rewrite process_voucher_type by now apply text_message_text_only.
  rewrite get_voucher_type_eq.
  cbn [snd user_data sheet clock outbox log append_calls with_clock
       with_outbox message_text text_message].
  rewrite <- !app_assoc. reflexivity.
Qed.

(** X8. Every completed form is appended once, with what the user typed.
    From no conversation, with the sheet connected: /start, any name, any
    voucher type (neither empty, neither from the suggested list or not)
    and any text that [float] accepts make exactly one [append_row] call,
    with the time of the last message, the name and the voucher type as they
    were typed, and the parsed amount; the conversation is over and the
    scratch data is empty.  When the request succeeds the row stands below
    the data of the sheet. *)
Theorem any_form_is_appended_once (a : App) (s : Worksheet)
    (t1 t2 t3 t4 : datetime) (name vt amount : string) (x : PyFloat.t) :
  conversation a = None ->
  sheet (world a) = Some s ->
  name <> "" -> vt <> "" ->
  PyFloat.PyFloat_FromString amount = Some x ->
  let a' := run [(t1, command "start"); (t2, text_message name);
                 (t3, text_message vt); (t4, text_message amount)] a in
  let row := [VStr (strftime t4); VStr name; VStr vt; VFloat x] in
  append_calls (world a') = append_calls (world a) ++ [row] /\
  conversation a' = None /\
  user_data (world a') = ∅ /\
  unhandled a' = unhandled a /\
  (hd None (faults s) = None ->
   grid <$> sheet (world a') = Some (data_rows (grid s) ++ [row])).
Proof.
  intros Hc Hs Hname Hvt Hx a' row. subst a'.
  change [(t1, command "start"); (t2, text_message name);
          (t3, text_message vt); (t4, text_message amount)]
    with ([(t1, command "start"); (t2, text_message name);
           (t3, text_message vt)] ++ [(t4, text_message amount)]).
  unfold run. rewrite fold_left_app.
  fold (run [(t1, command "start"); (t2, text_message name);
             (t3, text_message vt)] a).
  rewrite (run_collect a t1 t2 t3 name vt Hc Hname Hvt).
  cbn [fold_left]. unfold deliver. cbn [fst snd world conversation unhandled].
  match goal with
  | |- context [process_update ?u (mkApp ?w0 _ ?un0)] =>
      assert (Hn : user_data w0 !! "name" = Some (VStr name))
        by (cbn [user_data with_clock]; rewrite lookup_insert_ne by done;
            apply lookup_insert_eq);
      assert (Hv : user_data w0 !! "voucher_type" = Some (VStr vt))
        by (cbn [user_data with_clock]; apply lookup_insert_eq);
      destruct (process_amount_accepted u w0 un0 x _ _ eq_refl Hx Hn Hv)
        as [-> _];
      rewrite (get_voucher_amount_accepts u w0 x _ _ Hx Hn Hv)
  end.
  cbn [snd world conversation unhandled sheet with_clock clock append_calls].
  rewrite Hs.
  destruct (faults s) as [|[d|] rest]; cbn; repeat split; discriminate.
Qed.

(** A form with a name and a voucher type that are not in the keyboard. *)
Lemma any_form_is_appended_once_witness :
  conversation
    (run [(sample_time, command "start");
          (sample_time, text_message " Bob ");
          (sample_time, text_message "Toko Buku");
          (sample_time, text_message "1e3")] fresh_app) = None.
Proof.
  refine (proj1 (proj2 (any_form_is_appended_once fresh_app
                          (mkWorksheet [HEADER] [])
                          sample_time sample_time sample_time sample_time
                          " Bob " "Toko Buku" "1e3"
                          (S754_finite false 8796093022208000 (-43))
                          eq_refl eq_refl _ _ _))).
  - discriminate.
  - discriminate.
  - vm_compute; reflexivity.
Defined.

(** X9. Refused amounts keep the form open.  In state [VOUCHER_AMOUNT], any
    number of texts that [float] refuses leaves the conversation in
    [VOUCHER_AMOUNT] with the scratch data, the sheet and the appends
    untouched; each of them is answered with the validation prompt, and
    nothing limits their number. *)
Theorem refused_amounts_keep_the_form (bad : list string) (now : datetime)
    (w : World) (un : list Exception) :
  Forall (fun s => s <> "" /\ PyFloat.PyFloat_FromString s = None) bad ->
  let a' := run (texts now bad) (mkApp w (Some VOUCHER_AMOUNT) un) in
  conversation a' = Some VOUCHER_AMOUNT /\
  user_data (world a') = user_data w /\
  sheet (world a') = sheet w /\
  append_calls (world a') = append_calls w /\
  outbox (world a') =
    outbox w ++ repeat (mkReply invalid_amount_text None) (length bad) /\
  unhandled a' = un.
Proof.
  intros Hbad. cbv zeta. revert w.
  induction Hbad as [|s bad [Hs Hp] _ IH]; intros w.
  - cbn. rewrite app_nil_r. repeat split.
  - change (run (texts now (s :: bad)) (mkApp w (Some VOUCHER_AMOUNT) un))
      with (run (texts now bad)
              (deliver (mkApp w (Some VOUCHER_AMOUNT) un)
                 (now, text_message s))).
    unfold deliver. cbn [fst snd world conversation unhandled].
    rewrite process_voucher_amount by now apply text_message_text_only.
    unfold conv_handle_update; cbn [callback MessageHandler world unhandled].
    rewrite (get_voucher_amount_rejects (text_message s) _ Hp).
    change (if VOUCHER_AMOUNT =? END then None else Some VOUCHER_AMOUNT)
      with (Some VOUCHER_AMOUNT).
    destruct (IH (with_outbox
                    (outbox (with_clock now w) ++
                     [mkReply invalid_amount_text None]) (with_clock now w)))
      as (E1 & E2 & E3 & E4 & E5 & E6).
    split; [exact E1|]. split; [exact E2|]. split; [exact E3|].
    split; [exact E4|]. split; [|exact E6].
    rewrite E5. cbn [outbox with_outbox with_clock length repeat].
    rewrite <- app_assoc. reflexivity.
Qed.

(** Three refused texts while the amount is awaited. *)
Lemma refused_amounts_keep_the_form_witness :
  conversation
    (run (texts sample_time ["fifty"; "12xyz"; "$50"])
       (mkApp (world (awaiting_amount fresh_app)) (Some VOUCHER_AMOUNT) [])) =
  Some VOUCHER_AMOUNT.
Proof.
  refine (proj1 (refused_amounts_keep_the_form ["fifty"; "12xyz"; "$50"]
                   sample_time (world (awaiting_amount fresh_app)) [] _)).
  repeat constructor; try discriminate; vm_compute; reflexivity.
Defined.

(** X10. The first prompt is always two commands away.  In any state,
    /cancel directly followed by /start leads to [NAME] with the welcome
    prompt as the last message, and the sheet and the appends untouched.
    If a conversation was going on, /cancel has emptied the scratch data;
    if none was, /cancel is ignored and the scratch data is what it was:
    /start does not clear it. *)
Theorem cancel_then_start_reopens_the_form (a : App) (t1 t2 : datetime) :
  let a' := run [(t1, command "cancel"); (t2, command "start")] a in
  conversation a' = Some NAME /\
  user_data (world a') =
    match conversation a with
    | Some _ => ∅
    | None => user_data (world a)
    end /\
  last (outbox (world a')) = Some (mkReply welcome_text None) /\
  sheet (world a') = sheet (world a) /\
  append_calls (world a') = append_calls (world a).
Proof.
  cbv zeta.
  destruct a as [w [s|] un]; cbn [conversation world] in *;
    unfold run; cbn [fold_left]; unfold deliver;
    cbn [fst snd world conversation unhandled].
  - rewrite (process_cancel (command "cancel") _ s un eq_refl).
    cbn [world conversation unhandled].
    rewrite process_start_idle by reflexivity.
    cbn [world conversation user_data sheet append_calls outbox with_outbox
         with_clock].
    rewrite last_snoc. repeat split.
  - rewrite (process_other_command (command "cancel") "cancel") by done.
    cbn [world conversation unhandled].
    rewrite process_start_idle by reflexivity.
    cbn [world conversation user_data sheet append_calls outbox with_outbox
         with_clock].
    rewrite last_snoc. repeat split.
Qed.

(** *** Edited messages *)

Lemma check_help st u :
  lower <$> message_command u = Some "help" ->
  conv_check_update conv_handler st u = None.
Proof.
  intros Hn. destruct (named_command u _ Hn) as (c & Hc & Hl).
  destruct st as [s|].
  - rewrite (check_command s c u Hc), Hl.
    now rewrite bool_decide_eq_false_2 by discriminate.
  - rewrite check_idle, Hn.
    now rewrite bool_decide_eq_false_2 by discriminate.
Qed.

Lemma process_edited_unhandled u a :
  unhandled (process_edited u a) = unhandled a \/
  unhandled (process_edited u a) = unhandled a ++ [AttributeError].
Proof.
  unfold process_edited.
  destruct (conv_check_update conv_handler (conversation a) u);
    [right; reflexivity|].
  cbn. case_bool_decide; [right|left]; reflexivity.
Qed.

(** X15. An edited message goes to the callback that a new message with
    the same text would go to, and the callback raises AttributeError on
    [update.message], which is [None]: nothing is sent, and no state of a
    conversation, no scratch data, nor the sheet changes.  This is so for a
    text in any of the three collecting states and for /help in any state;
    a text of a user without a conversation is taken by no handler, and
    nothing is raised. *)
Theorem edited_message_raises (s : Service) (t : datetime) (chat user : Z)
    (u : Update) :
  let s' := serve s (t, EditedMessage chat user u) in
  (forall k, conversations s' !! k = conversations s !! k) /\
  (forall v, user_data_of s' v = user_data_of s v) /\
  outbox (common s') = outbox (common s) /\
  sheet (common s') = sheet (common s) /\
  append_calls (common s') = append_calls (common s) /\
  (escaped s' = escaped s \/ escaped s' = escaped s ++ [AttributeError]) /\
  (text_only u = true ->
   conversations s !! (chat, user) = Some NAME \/
   conversations s !! (chat, user) = Some VOUCHER_TYPE \/
   conversations s !! (chat, user) = Some VOUCHER_AMOUNT ->
   escaped s' = escaped s ++ [AttributeError]) /\
  (lower <$> message_command u = Some "help" ->
   escaped s' = escaped s ++ [AttributeError]) /\
  (message_command u = None -> conversations s !! (chat, user) = None ->
   escaped s' = escaped s).
Proof.
  cbv zeta. unfold serve; cbn [fst snd].
  split; [|split; [|split; [|split; [|split; [|split; [|split; [|split]]]]]]].
  - intros k. destruct (decide (k = (chat, user))) as [->|Hk].
    + now rewrite commit_conversation, process_edited_conversation.
    + now rewrite commit_conversation_other.
  - intros v. destruct (decide (v = user)) as [->|Hv].
    + now rewrite commit_user_data, process_edited_world.
    + now rewrite commit_user_data_other.
  - unfold commit; cbn [common]. now rewrite process_edited_world.
  - unfold commit; cbn [common]. now rewrite process_edited_world.
  - unfold commit; cbn [common]. now rewrite process_edited_world.
  - unfold commit; cbn [escaped]. apply process_edited_unhandled.
  - intros Ht Hst. unfold commit; cbn [escaped].
    unfold process_edited, session; cbn [conversation].
    destruct Hst as [Hst|[Hst|Hst]]; rewrite Hst.
    + now rewrite (check_text _ _ _ states_NAME Ht).
    + now rewrite (check_text _ _ _ states_VOUCHER_TYPE Ht).
    + now rewrite (check_text _ _ _ states_VOUCHER_AMOUNT Ht).
  - intros Hn. unfold commit; cbn [escaped].
    unfold process_edited. rewrite (check_help _ _ Hn).
    destruct (named_command u _ Hn) as (c & Hc & Hl).
    cbv zeta. rewrite (help_check c u Hc), Hl.
    now rewrite bool_decide_eq_true_2 by reflexivity.
  - intros Hc Hst. unfold commit; cbn [escaped].
    unfold process_edited, session; cbn [conversation].
    rewrite Hst, check_idle, Hc.
    rewrite bool_decide_eq_false_2 by discriminate.
    cbn. rewrite Hc. now rewrite bool_decide_eq_false_2 by discriminate.
Qed.

(** *** Start-up *)

Ltac finish_start_up :=
  repeat match goal with
         | |- _ /\ _ => split
         | |- _ = _ => rewrite <- ?app_assoc; reflexivity
         | |- exists s, inr _ = inr s => eexists; reflexivity
         | |- exists e, _ = _ ++ match e with _ => _ end =>
             first [ match goal with
                     | |- context [FmtExc ?e0] => exists e0
                     end
                   | exists FileNotFoundError ]
         end.


Lemma forallb_drop_while {A} (p : A -> bool) (l : list A) :
  forallb p l = true -> drop_while p l = [].
Proof.
  induction l as [|x l IH]; [reflexivity|]. cbn.
  destruct (p x); [exact IH | discriminate].
Qed.

Lemma drop_while_nil_forallb {A} (p : A -> bool) (l : list A) :
  drop_while p l = [] -> forallb p l = true.
Proof.
  induction l as [|x l IH]; [reflexivity|]. cbn.
  destruct (p x); [exact IH | discriminate].
Qed.

Lemma forallb_rev_iff {A} (p : A -> bool) (l : list A) :
  forallb p (rev l) = forallb p l.
Proof.
  induction l as [|x l IH]; [reflexivity|]. cbn.
  rewrite forallb_app, IH. cbn. rewrite andb_true_r. apply andb_comm.
Qed.

(** A sheet without data has a first row that reads empty. *)
Lemma no_data_first_row_empty (g : list Row) :
  data_rows g = [] -> trim_row (hd [] g) = [].
Proof.
  unfold data_rows, trim_row. intros Hg.
  assert (Hb : forallb blank_row g = true).
  { rewrite <- forallb_rev_iff. apply drop_while_nil_forallb.
    rewrite <- (rev_involutive (drop_while _ _)). now rewrite Hg. }
  destruct g as [|r g]; [reflexivity|]. cbn [hd].
  cbn in Hb. apply andb_true_iff in Hb as [Hr _].
  rewrite forallb_drop_while; [reflexivity|].
  now rewrite forallb_rev_iff.
Qed.

(** X12. The header is written to a blank sheet only.  With the requests
    succeeding: where the first row holds something, start-up leaves the
    sheet as it is and calls no append; where the sheet holds no data at all,
    the header becomes its first row, and a start-up that follows finds it
    and writes nothing. *)
Theorem header_goes_to_a_blank_sheet_only (g : list Row) (t0 : datetime) :
  let a := boot (inr (mkWorksheet g [])) t0 in
  (trim_row (hd [] g) <> [] ->
   sheet (world a) = Some (mkWorksheet g []) /\
   append_calls (world a) = []) /\
  (data_rows g = [] ->
   sheet (world a) = Some (mkWorksheet [HEADER] []) /\
   append_calls (world a) = [HEADER] /\
   forall t1,
     sheet (world (boot (inr (mkWorksheet [HEADER] [])) t1)) =
       Some (mkWorksheet [HEADER] []) /\
     append_calls (world (boot (inr (mkWorksheet [HEADER] [])) t1)) = []).
Proof.
  cbv zeta.
  assert (Hboot : forall (g0 : list Row) t,
    let w1 := snd (ensureHeader (with_sheet (Some (mkWorksheet g0 []))
                                   (blank_world t))) in
    sheet (world (boot (inr (mkWorksheet g0 [])) t)) = sheet w1 /\
    append_calls (world (boot (inr (mkWorksheet g0 [])) t)) = append_calls w1).
  { intros g0 t. cbv zeta.
    unfold boot, initialize_sheet, try_except, mbind, M_bind.
    cbn [world setup_google_sheets modify snd].
    destruct (ensureHeader _) as [[e|[]] w1] eqn:Eh; cbn [snd].
    - exfalso. revert Eh.
      unfold ensureHeader, row_values, request, mbind, M_bind. cbn.
      destruct (trim_row (nth 0 g0 [])); [|discriminate].
      unfold append_row, request, modify, mbind, M_bind. cbn. discriminate.
    - split; reflexivity. }
  assert (Hrun : forall (g0 : list Row) t,
    snd (ensureHeader (with_sheet (Some (mkWorksheet g0 []))
                         (blank_world t))) =
    match trim_row (hd [] g0) with
    | [] =>
        mkWorld ∅ (Some (mkWorksheet (data_rows g0 ++ [HEADER]) [])) t [] []
          [HEADER]
    | _ :: _ => mkWorld ∅ (Some (mkWorksheet g0 [])) t [] [] []
    end).
  { intros g0 t.
    rewrite (ensureHeader_connected
               (with_sheet (Some (mkWorksheet g0 [])) (blank_world t))
               g0 eq_refl).
    destruct (trim_row (hd [] g0)); reflexivity. }
  split.
  - intros Hne. destruct (Hboot g t0) as [-> ->]. rewrite Hrun.
    destruct (trim_row (hd [] g)); [congruence|]. split; reflexivity.
  - intros Hd. destruct (Hboot g t0) as [-> ->]. rewrite Hrun.
    rewrite (no_data_first_row_empty g Hd), Hd.
    split; [reflexivity|]. split; [reflexivity|].
    intros t1. destruct (Hboot [HEADER] t1) as [-> ->]. rewrite Hrun.
    split; reflexivity.
Qed.

Section ConnectFacts.

Variables Json Credentials Client : Type.
Variable json_loads : string -> Exception + Json.
Variable from_service_account_info :
  Json -> list string -> Exception + Credentials.
Variable from_service_account_file :
  string -> list string -> Exception + Credentials.
Variable authorize : Credentials -> Exception + Client.
Variable open_sheet1 : Client -> option string -> Exception + Worksheet.

(** X13. The credentials in the environment come first.  When
    GOOGLE_APPLICATION_CREDENTIALS_JSON is set and not empty, the
    credentials file plays no part: [setup_google_sheets] comes to the same
    whatever GOOGLE_CREDENTIALS_FILE says and whatever reading a file would
    give.  When it is unset or empty, the JSON functions play no part, the
    file is GOOGLE_CREDENTIALS_FILE or else credentials.json, and if that
    file is missing start-up ends with [sheet] unset and the one log record
    that names the environment variable. *)
Theorem credentials_from_environment_first (environ : gmap string string) :
  (truthy (environ !! "GOOGLE_APPLICATION_CREDENTIALS_JSON") = true ->
   forall other_file path,
     setup_google_sheets_result Json Credentials Client json_loads
       from_service_account_info other_file authorize open_sheet1
       (<["GOOGLE_CREDENTIALS_FILE" := path]> environ) =
     setup_google_sheets_result Json Credentials Client json_loads
       from_service_account_info from_service_account_file authorize
       open_sheet1 environ) /\
  (truthy (environ !! "GOOGLE_APPLICATION_CREDENTIALS_JSON") = false ->
   (forall other_loads other_info,
      setup_google_sheets_result Json Credentials Client other_loads
        other_info from_service_account_file authorize open_sheet1 environ =
      setup_google_sheets_result Json Credentials Client json_loads
        from_service_account_info from_service_account_file authorize
        open_sheet1 environ) /\
   (from_service_account_file
      (default "credentials.json" (environ !! "GOOGLE_CREDENTIALS_FILE"))
      scope = inl FileNotFoundError ->
    forall t0,
      let a := boot (setup_google_sheets_result Json Credentials Client
                       json_loads from_service_account_info
                       from_service_account_file authorize open_sheet1
                       environ) t0 in
      sheet (world a) = None /\
      log (world a) =
        [LogError [Lit "credentials.json not found. Please set GOOGLE_APPLICATION_CREDENTIALS_JSON environment variable."]])).
Proof.
  split.
  - intros Ht other_file path.
    unfold setup_google_sheets_result, load_credentials.
    rewrite !lookup_insert_ne by done. rewrite Ht.
    destruct (json_loads _) as [e|creds_dict]; [reflexivity|].
    destruct (from_service_account_info _ _) as [e|credentials];
      [reflexivity|].
    destruct (authorize _) as [e|client]; [reflexivity|].
    now rewrite lookup_insert_ne by done.
  - intros Hf. split.
    + intros other_loads other_info.
      unfold setup_google_sheets_result, load_credentials.
      rewrite Hf. reflexivity.
    + intros Hmissing t0. cbv zeta.
      unfold setup_google_sheets_result, load_credentials.
      rewrite Hf, Hmissing. split; reflexivity.
Qed.

End ConnectFacts.
